(** * fluxbitc: the overlay-flag compiler and its configuration store

    A shallow embedding of [fluxbitc.py].  Python values are modelled as
    they occur in the program: [str] as [string], one [ascii] for each
    character, which covers the code points below 256, a [dict] as an
    association list in insertion order, a parsed JSON document as the
    tagged union [json], a [float] as a binary64 value of Stdlib's
    [spec_float], and a raised exception as the [Raise] case of [result]. *)

From Stdlib Require Import ZArith List String Ascii Bool Lia.
From Stdlib Require Import Floats.SpecFloat DecimalString.
Import ListNotations.

#[local] Set Warnings "-register-all".

Local Open Scope list_scope.
Local Open Scope string_scope.

(** ** Exceptions *)

Inductive exn : Type :=
| BitcException (msg : string)
| AttributeError
| TypeError
| KeyError
| ValueError
| ZeroDivisionError.

Inductive result (A : Type) : Type :=
| Ok (a : A)
| Raise (e : exn).

Arguments Ok {A} a.
Arguments Raise {A} e.

Definition bind {A B : Type} (r : result A) (k : A -> result B) : result B :=
  match r with
  | Ok a => k a
  | Raise e => Raise e
  end.

Notation "x <- r ;; k" := (bind r (fun x => k))
  (at level 61, r at next level, right associativity).

(** [for x in l: body], where the body may raise. *)
Fixpoint for_each {A B : Type} (body : A -> result B) (l : list A)
  : result (list B) :=
  match l with
  | [] => Ok []
  | x :: rest =>
      y <- body x ;;
      ys <- for_each body rest ;;
      Ok (y :: ys)
  end.

(** ** Python [str] methods *)

Module Str.

(** [sub in s] for two strings. *)
Fixpoint contains (sub s : string) : bool :=
  match s with
  | EmptyString => String.eqb sub EmptyString
  | String _ s' => String.prefix sub s || contains sub s'
  end.

(** The scan of [s.replace(old, new)] for a non-empty [old]: [skip]
    counts the characters of a match still to be passed over. *)
Fixpoint replace_from (old new : string) (skip : nat) (s : string) : string :=
  match s with
  | EmptyString => EmptyString
  | String c s' =>
      match skip with
      | S k => replace_from old new k s'
      | O =>
          if String.prefix old s
          then new ++ replace_from old new (String.length old - 1) s'
          else String c (replace_from old new 0 s')
      end
  end.

(** [s.replace("", new)] puts [new] before every character and at the end. *)
Fixpoint interleave (new s : string) : string :=
  match s with
  | EmptyString => new
  | String c s' => new ++ String c (interleave new s')
  end.

Definition replace (old new s : string) : string :=
  match old with
  | EmptyString => interleave new s
  | String _ _ => replace_from old new 0 s
  end.

(** The scan of [s.split(sep)] for a non-empty [sep]. *)
Fixpoint split_from (sep : string) (skip : nat) (s : string) : list string :=
  match s with
  | EmptyString => [EmptyString]
  | String c s' =>
      match skip with
      | S k => split_from sep k s'
      | O =>
          if String.prefix sep s
          then EmptyString :: split_from sep (String.length sep - 1) s'
          else match split_from sep 0 s' with
               | h :: t => String c h :: t
               | [] => [String c EmptyString]
               end
      end
  end.

(** [s.split(sep)]; every call of the program passes a one-character
    separator (an empty one would be a [ValueError]). *)
Definition split (sep s : string) : list string := split_from sep 0 s.

(** [sep.join(l)]. *)
Definition join (sep : string) (l : list string) : string :=
  String.concat sep l.

End Str.

(** ** Python [dict] with string keys, in insertion order *)

Module Dict.

Definition t (V : Type) : Type := list (string * V).

Fixpoint get {V : Type} (k : string) (d : t V) : option V :=
  match d with
  | [] => None
  | (k', v) :: rest => if String.eqb k k' then Some v else get k rest
  end.

Definition keys {V : Type} (d : t V) : list string := map fst d.

Definition values {V : Type} (d : t V) : list V := map snd d.

(** [k in d] *)
Definition mem {V : Type} (k : string) (d : t V) : bool :=
  match get k d with
  | Some _ => true
  | None => false
  end.

(** [d[k] = v]: an existing key keeps its place, a new one goes last. *)
Fixpoint set {V : Type} (k : string) (v : V) (d : t V) : t V :=
  match d with
  | [] => [(k, v)]
  | (k', v') :: rest =>
      if String.eqb k k' then (k', v) :: rest else (k', v') :: set k v rest
  end.

(** [d.update(other)] *)
Definition update {V : Type} (d other : t V) : t V :=
  fold_left (fun acc kv => set (fst kv) (snd kv) acc) other d.

End Dict.

(** ** Python [int] *)

(** [str(n)] *)
Definition int_str (n : Z) : string := NilZero.string_of_int (Z.to_int n).

(** ** Python [float]: IEEE 754 binary64 *)

Module Float.

Local Open Scope Z_scope.

Definition t : Type := spec_float.

Definition prec : Z := 53.
Definition emax : Z := 1024.

Definition of_Z (n : Z) : t := binary_normalize prec emax n 0 false.

(** The binary64 value nearest to [p / q] (ties to even), for [0 <= p]
    and [0 < q], with sign [neg].  The quotient is taken to 66 bits or
    more and its inexactness kept as a sticky low bit before rounding. *)
Definition nearest (neg : bool) (p q : Z) : t :=
  if p =? 0 then S754_zero neg
  else
    let k := 66 + Z.log2 q - Z.log2 p in
    let num := if 0 <=? k then p * 2 ^ k else p in
    let den := if 0 <=? k then q else q * 2 ^ (- k) in
    let sticky := if num mod den =? 0 then 0 else 1 in
    match 2 * (num / den) + sticky with
    | Z.pos m => binary_round prec emax neg m (- k - 1)
    | _ => S754_zero neg
    end.

(** [m * 10 ^ e] as a binary64 value, the way a decimal literal is read. *)
Definition of_decimal (neg : bool) (m e : Z) : t :=
  if 0 <=? e then nearest neg (m * 10 ^ e) 1 else nearest neg m (10 ^ (- e)).

Definition is_zero (x : t) : bool :=
  match x with
  | S754_zero _ => true
  | _ => false
  end.

(** [a / b] on floats. *)
Definition truediv (a b : t) : result t :=
  if is_zero b then Raise ZeroDivisionError else Ok (SFdiv prec emax a b).

(** [a / b] for integers [0 <= a], [0 < b], rounded to the nearest
    integer, ties to even. *)
Definition div_half_even (a b : Z) : Z :=
  let q := a / b in
  let r := a mod b in
  match 2 * r ?= b with
  | Lt => q
  | Gt => q + 1
  | Eq => if Z.even q then q else q + 1
  end.

(** [round(x, ndigits)] for [0 <= ndigits]: the exact value of [x] is
    rounded to [ndigits] decimals and the decimal read back. *)
Definition round (x : t) (ndigits : nat) : t :=
  match x with
  | S754_finite s m e =>
      if (323 <? Z.of_nat ndigits) then x
      else
        let scale := 10 ^ Z.of_nat ndigits in
        let n :=
          if 0 <=? e then Z.pos m * 2 ^ e * scale
          else div_half_even (Z.pos m * scale) (2 ^ (- e)) in
        nearest s n scale
  | _ => x
  end.

(** *** [repr(x)]: the shortest decimal that reads back as [x] *)

Fixpoint zeros (n : nat) : string :=
  match n with
  | O => EmptyString
  | S k => String "0" (zeros k)
  end.

Fixpoint rstrip_zeros (s : string) : string :=
  match s with
  | EmptyString => EmptyString
  | String c s' =>
      match rstrip_zeros s' with
      | EmptyString => if Ascii.eqb c "0" then EmptyString else String c EmptyString
      | r => String c r
      end
  end.

(** The least [j >= 1] with [den <= num * 10 ^ j], searched upwards. *)
Fixpoint scale_up (fuel : nat) (num den j : Z) : Z :=
  match fuel with
  | O => j
  | S f => if den <=? num * 10 ^ j then j else scale_up f num den (j + 1)
  end.

(** [k] with [10 ^ (k - 1) <= num / den < 10 ^ k]. *)
Definition decimal_exponent (num den : Z) : Z :=
  if den <=? num then Z.of_nat (String.length (int_str (num / den)))
  else 1 - scale_up 400 num den 1.

(** The [d]-digit decimals next to [x = num / den], and the one that
    reads back as [x]: the closer one when both do, and the even one
    when [x] lies half way between them. *)
Definition candidate (x : t) (num den k d : Z) : option Z :=
  let sn := if 0 <=? d - k then num * 10 ^ (d - k) else num in
  let sd := if 0 <=? d - k then den else den * 10 ^ (k - d) in
  let lo := sn / sd in
  let hi := lo + 1 in
  let back c := SFeqb (of_decimal false c (k - d)) x in
  let lo_first :=
    match 2 * sn ?= (2 * lo + 1) * sd with
    | Lt => true
    | Eq => Z.even lo
    | Gt => false
    end in
  match back lo, back hi with
  | true, true => Some (if lo_first then lo else hi)
  | true, false => Some lo
  | false, true => Some hi
  | false, false => None
  end.

Fixpoint shortest (fuel : nat) (x : t) (num den k d : Z) : Z * Z :=
  match fuel with
  | O => (0, d)
  | S f =>
      match candidate x num den k d with
      | Some c => (c, d)
      | None => shortest f x num den k (d + 1)
      end
  end.

(** The digits of [repr] and the position of the decimal point: the
    value is [0.digits * 10 ^ decpt]. *)
Definition shortest_digits (m : positive) (e : Z) : string * Z :=
  let num := if 0 <=? e then Z.pos m * 2 ^ e else Z.pos m in
  let den := if 0 <=? e then 1 else 2 ^ (- e) in
  let k := decimal_exponent num den in
  let '(c, d) := shortest 17 (S754_finite false m e) num den k 1 in
  let ds := int_str c in
  (rstrip_zeros ds, k + (Z.of_nat (String.length ds) - d)).

Definition exponent_text (e : Z) : string :=
  let a := int_str (Z.abs e) in
  (if e <? 0 then "-" else "+")
    ++ (if Nat.ltb (String.length a) 2 then "0" else "") ++ a.

Definition format_digits (ds : string) (decpt : Z) : string :=
  let n := Z.of_nat (String.length ds) in
  if (decpt <=? -4) || (16 <? decpt) then
    match ds with
    | EmptyString => EmptyString
    | String c EmptyString => String c ("e" ++ exponent_text (decpt - 1))
    | String c rest => String c ("." ++ rest ++ "e" ++ exponent_text (decpt - 1))
    end
  else if decpt <=? 0 then "0." ++ zeros (Z.to_nat (- decpt)) ++ ds
  else if n <=? decpt then ds ++ zeros (Z.to_nat (decpt - n)) ++ ".0"
  else String.substring 0 (Z.to_nat decpt) ds ++ "."
       ++ String.substring (Z.to_nat decpt) (Z.to_nat (n - decpt)) ds.

Definition repr (x : t) : string :=
  match x with
  | S754_zero s => if s then "-0.0" else "0.0"
  | S754_infinity s => if s then "-inf" else "inf"
  | S754_nan => "nan"
  | S754_finite s m e =>
      let '(ds, decpt) := shortest_digits m e in
      (if s then "-" else "") ++ format_digits ds decpt
  end.

End Float.

(** ** Reading numbers: [int(s)] and [float(s)] on a [str]

    Below code point 256 the decimal digits are the ASCII ones.  The
    blanks stripped at both ends are the ASCII ones, codes 9 to 13 and
    32, and the two blanks beyond ASCII, U+0085 and U+00A0; the
    separators 28 to 31 are not stripped and make the text invalid. *)

Module Parse.

Definition is_digit (c : ascii) : bool :=
  (48 <=? nat_of_ascii c)%nat && (nat_of_ascii c <=? 57)%nat.

Definition is_space (c : ascii) : bool :=
  let n := nat_of_ascii c in
  ((9 <=? n)%nat && (n <=? 13)%nat) || (n =? 32)%nat
  || (n =? 133)%nat || (n =? 160)%nat.

Definition digit_value (c : ascii) : Z := Z.of_nat (nat_of_ascii c - 48).

Definition lower (c : ascii) : ascii :=
  let n := nat_of_ascii c in
  if (65 <=? n)%nat && (n <=? 90)%nat then ascii_of_nat (n + 32) else c.

Fixpoint lowercase (s : string) : string :=
  match s with
  | EmptyString => EmptyString
  | String c s' => String (lower c) (lowercase s')
  end.

Fixpoint lstrip (s : string) : string :=
  match s with
  | EmptyString => EmptyString
  | String c s' => if is_space c then lstrip s' else s
  end.

Fixpoint rstrip (s : string) : string :=
  match s with
  | EmptyString => EmptyString
  | String c s' =>
      match rstrip s' with
      | EmptyString => if is_space c then EmptyString else String c EmptyString
      | r => String c r
      end
  end.

Definition strip (s : string) : string := rstrip (lstrip s).

(** Digit separators: an underscore stands between two digits, and is
    dropped; [prev] is the character before the one read. *)
Fixpoint drop_underscores (prev : ascii) (s : string) : option string :=
  match s with
  | EmptyString => if Ascii.eqb prev "_" then None else Some EmptyString
  | String c s' =>
      if Ascii.eqb c "_" then
        if is_digit prev then drop_underscores c s' else None
      else if Ascii.eqb prev "_" && negb (is_digit c) then None
      else option_map (String c) (drop_underscores c s')
  end.

(** The leading digits of [s] and what follows them. *)
Fixpoint span_digits (s : string) : string * string :=
  match s with
  | EmptyString => (EmptyString, EmptyString)
  | String c s' =>
      if is_digit c
      then let '(ds, rest) := span_digits s' in (String c ds, rest)
      else (EmptyString, s)
  end.

Fixpoint digits_value (acc : Z) (ds : string) : Z :=
  match ds with
  | EmptyString => acc
  | String c ds' => digits_value (10 * acc + digit_value c)%Z ds'
  end.

(** An optional sign: whether it is a minus, and the rest. *)
Definition sign (s : string) : bool * string :=
  match s with
  | String "-" s' => (true, s')
  | String "+" s' => (false, s')
  | _ => (false, s)
  end.

(** The most digits [int(s)] takes, [sys.int_info.default_max_str_digits]
    of CPython 3.11 and later. *)
Definition max_str_digits : nat := 4300.

(** [int(s)], base ten. *)
Definition py_int (s : string) : result Z :=
  match drop_underscores "000" (strip s) with
  | None => Raise ValueError
  | Some body =>
      let '(neg, r) := sign body in
      match span_digits r with
      | (String c ds, EmptyString) =>
          if (max_str_digits <? String.length (String c ds))%nat
          then Raise ValueError
          else
            let n := digits_value 0 (String c ds) in
            Ok (if neg then (- n)%Z else n)
      | _ => Raise ValueError
      end
  end.

(** The exponent part of a decimal literal: nothing, or [e] or [E] with
    an optional sign and one digit or more, up to the end. *)
Definition exponent (s : string) : option Z :=
  match s with
  | EmptyString => Some 0%Z
  | String c s' =>
      if Ascii.eqb (lower c) "e" then
        let '(neg, r) := sign s' in
        match span_digits r with
        | (String d ds, EmptyString) =>
            let n := digits_value 0 (String d ds) in
            Some (if neg then (- n)%Z else n)
        | _ => None
        end
      else None
  end.

(** [float(s)]. *)
Definition py_float (s : string) : result Float.t :=
  match drop_underscores "000" (strip s) with
  | None => Raise ValueError
  | Some body =>
      let '(neg, r) := sign body in
      let name := lowercase r in
      if String.eqb name "inf" || String.eqb name "infinity"
      then Ok (S754_infinity neg)
      else if String.eqb name "nan" then Ok S754_nan
      else
        let '(ip, r1) := span_digits r in
        let '(fp, r2) :=
          match r1 with
          | String "." r1' => span_digits r1'
          | _ => (EmptyString, r1)
          end in
        match ip ++ fp, exponent r2 with
        | String c ds, Some e =>
            Ok (Float.of_decimal neg (digits_value 0 (String c ds))
                  (e - Z.of_nat (String.length fp)))
        | _, _ => Raise ValueError
        end
  end.

End Parse.

(** ** Parsed JSON documents, as [json.load] returns them

    [json.load] reads an integer with [int], so a [JInt] of a loaded
    document has at most [Parse.max_str_digits] digits, and [str] of it
    does not fail. *)

Inductive json : Type :=
| JNull
| JBool (b : bool)
| JInt (n : Z)
| JFloat (f : Float.t)
| JStr (s : string)
| JList (l : list json)
| JDict (d : list (string * json)).

Module Repr.

Definition dquote : ascii := "034".
Definition squote : ascii := "'".
Definition backslash : ascii := "\".

Definition hex_digit (n : nat) : ascii :=
  match String.get n "0123456789abcdef" with
  | Some c => c
  | None => "0"
  end.

(** The code points below 256 that [repr] writes as they are: the
    ASCII ones from the space to the tilde, and those above U+00A0
    apart from the soft hyphen U+00AD. *)
Definition printable (c : ascii) : bool :=
  let n := nat_of_ascii c in
  ((32 <=? n)%nat && (n <? 127)%nat) || ((160 <? n)%nat && negb (n =? 173)%nat).

(** One character of [repr(s)] inside the quotes [quote]. *)
Definition repr_char (quote c : ascii) : string :=
  let n := nat_of_ascii c in
  if Ascii.eqb c quote || Ascii.eqb c backslash
  then String backslash (String c EmptyString)
  else if Ascii.eqb c "009" then String backslash "t"
  else if Ascii.eqb c "010" then String backslash "n"
  else if Ascii.eqb c "013" then String backslash "r"
  else if negb (printable c)
  then String backslash
         (String "x" (String (hex_digit (n / 16))
                        (String (hex_digit (n mod 16)) EmptyString)))
  else String c EmptyString.

Fixpoint repr_chars (quote : ascii) (s : string) : string :=
  match s with
  | EmptyString => EmptyString
  | String c s' => repr_char quote c ++ repr_chars quote s'
  end.

(** [repr(s)] of a [str]: single quotes, unless the text has a single
    quote and no double quote. *)
Definition repr_str (s : string) : string :=
  let quote :=
    if Str.contains (String squote EmptyString) s
       && negb (Str.contains (String dquote EmptyString) s)
    then dquote else squote in
  String quote (repr_chars quote s ++ String quote EmptyString).

(** [repr(v)] *)
Fixpoint py_repr (v : json) : string :=
  match v with
  | JNull => "None"
  | JBool b => if b then "True" else "False"
  | JInt n => int_str n
  | JFloat f => Float.repr f
  | JStr s => repr_str s
  | JList l => "[" ++ Str.join ", " (map py_repr l) ++ "]"
  | JDict d =>
      "{" ++ Str.join ", "
               (map (fun kv => repr_str (fst kv) ++ ": " ++ py_repr (snd kv)) d)
          ++ "}"
  end.

(** [str(v)], also what [f"{v}"] gives. *)
Definition py_str (v : json) : string :=
  match v with
  | JStr s => s
  | _ => py_repr v
  end.

End Repr.

(** ** Operations on dynamically typed values *)

(** [v.keys()] *)
Definition keys_of (v : json) : result (list string) :=
  match v with
  | JDict d => Ok (Dict.keys d)
  | _ => Raise AttributeError
  end.

(** [v.items()] *)
Definition items_of (v : json) : result (list (string * json)) :=
  match v with
  | JDict d => Ok d
  | _ => Raise AttributeError
  end.

(** [v[k]] for a [str] key. *)
Definition getitem (v : json) (k : string) : result json :=
  match v with
  | JDict d =>
      match Dict.get k d with
      | Some x => Ok x
      | None => Raise KeyError
      end
  | _ => Raise TypeError
  end.

(** [k in ks] for a list of [str]. *)
Definition str_in (k : string) (ks : list string) : bool :=
  existsb (String.eqb k) ks.

Fixpoint chars (s : string) : list string :=
  match s with
  | EmptyString => []
  | String c s' => String c EmptyString :: chars s'
  end.

(** What [for x in v] runs over. *)
Definition iterate (v : json) : result (list json) :=
  match v with
  | JList l => Ok l
  | JDict d => Ok (map JStr (Dict.keys d))
  | JStr s => Ok (map JStr (chars s))
  | _ => Raise TypeError
  end.

(** ** class Config *)

Module Config.

(** [data] is the parsed configuration document, a JSON object
    ([data: Dict[str, dict]]); the user-data namespace is its entry
    ["_userdata"]. *)
Record t : Type := mk { filepath : string; data : Dict.t json }.

(** One round of the loop of [init_fonts]: the font [font] after its
    ["fontcolor"] has been looked up in [colors]. *)
Definition init_font (colors font : json) : result json :=
  match font with
  | JDict f =>
      match Dict.get "fontcolor" f with
      | None => Ok font
      | Some fc =>
          cd <- items_of colors ;;
          match fc with
          | JStr name =>
              match Dict.get name cd with
              | Some c => Ok (JDict (Dict.set "fontcolor" c f))
              | None => Ok font
              end
          | JList _ | JDict _ => Raise TypeError
          | _ => Ok font
          end
      end
  | JList l =>
      if existsb (fun x => match x with
                           | JStr s => String.eqb s "fontcolor"
                           | _ => false
                           end) l
      then Raise TypeError else Ok font
  | JStr s => if Str.contains "fontcolor" s then Raise TypeError else Ok font
  | _ => Raise TypeError
  end.

Definition init_fonts (d : Dict.t json) : result (Dict.t json) :=
  match Dict.get "fonts" d, Dict.get "colors" d with
  | Some fonts, Some colors =>
      fd <- items_of fonts ;;
      fd' <- for_each (fun kv => f <- init_font colors (snd kv) ;; Ok (fst kv, f)) fd ;;
      Ok (Dict.set "fonts" (JDict fd') d)
  | _, _ => Ok d
  end.

(** [Config(filepath)]; [file] is the parsed content of the file at
    [filepath], or [None] when no such file exists. *)
Definition init (path : string) (file : option (Dict.t json)) : result t :=
  match file with
  | None => Raise (BitcException ("Config file '" ++ path ++ "' does not exist"))
  | Some doc =>
      d <- init_fonts doc ;;
      Ok (mk path (Dict.set "_userdata" (JDict []) d))
  end.

Definition __getitem__ (self : t) (key : string) : result json :=
  getitem (JDict (data self)) key.

(** The loop of [get] over the segments of the key. *)
Fixpoint get_loop (item : json) (ks : list string) (default : json) : json :=
  match ks with
  | [] => item
  | k :: rest =>
      match item with
      | JDict d =>
          get_loop (match Dict.get k d with
                    | Some v => v
                    | None => default
                    end) rest default
      | _ => default
      end
  end.

Definition get (self : t) (key : string) (default : json) : json :=
  get_loop (JDict (data self)) (Str.split "." key) default.

(** The argument of [hydrate_userdata]: [None], a list of [str], or a
    [dict] from [str] to [str]. *)
Inductive source : Type :=
| NoData
| DataList (l : list string)
| DataDict (d : Dict.t string).

(** [self.data["_userdata"][k] = v] *)
Definition set_userdata (self : t) (k v : string) : t * result unit :=
  match Dict.get "_userdata" (data self) with
  | None => (self, Raise KeyError)
  | Some (JDict ud) =>
      (mk (filepath self)
          (Dict.set "_userdata" (JDict (Dict.set k (JStr v) ud)) (data self)),
       Ok tt)
  | Some _ => (self, Raise TypeError)
  end.

(** The loop of [hydrate_userdata] over a list: the configuration as
    the loop leaves it, and whether it raised. *)
Fixpoint hydrate_list (self : t) (l : list string) : t * result unit :=
  match l with
  | [] => (self, Ok tt)
  | item :: rest =>
      match Str.split "=" item with
      | [k; v] =>
          match set_userdata self k v with
          | (self', Ok _) => hydrate_list self' rest
          | failed => failed
          end
      | _ =>
          (self, Raise (BitcException ("Badly formatted data entry '" ++ item ++ "'")))
      end
  end.

Definition hydrate_userdata (self : t) (src : source) : t * result unit :=
  match src with
  | NoData => (self, Ok tt)
  | DataList l => hydrate_list self l
  | DataDict d =>
      match Dict.get "_userdata" (data self) with
      | None => (self, Raise KeyError)
      | Some (JDict ud) =>
          (mk (filepath self)
              (Dict.set "_userdata"
                 (JDict (Dict.update ud (map (fun kv => (fst kv, JStr (snd kv))) d)))
                 (data self)),
           Ok tt)
      | Some _ => (self, Raise AttributeError)
      end
  end.

(** The user-data namespace as a [dict], when it is one. *)
Definition userdata (self : t) : option (Dict.t json) :=
  match Dict.get "_userdata" (data self) with
  | Some (JDict ud) => Some ud
  | _ => None
  end.

End Config.

(** ** build_userdata_from_metadata *)

(** The entries of the probed video stream that the program reads, with
    the types the probe gives them: texts, and integers for the index and
    the picture size; [color_range] may be missing. *)
Module VideoStream.

Record t : Type := mk {
  index : Z;
  width : Z;
  height : Z;
  avg_frame_rate : string;
  r_frame_rate : string;
  codec_name : string;
  pix_fmt : string;
  color_range : option string
}.

End VideoStream.

(** The value bound to [fps]: an [int] or a [float]. *)
Inductive number : Type :=
| NInt (n : Z)
| NFloat (f : Float.t).

(** [f"{fps}"] *)
Definition number_str (x : number) : string :=
  match x with
  | NInt n => int_str n
  | NFloat f => Float.repr f
  end.

(** The frame rate shown in ["info_1"], from the rate text [fps]. *)
Definition display_fps (fps : string) : result number :=
  if Str.contains "/" fps then
    match Str.split "/" fps with
    | [fps_n; fps_d] =>
        n <- Parse.py_float fps_n ;;
        d <- Parse.py_float fps_d ;;
        q <- Float.truediv n d ;;
        Ok (NFloat (Float.round q 3))
    | _ => Raise ValueError
    end
  else
    n <- Parse.py_int fps ;;
    Ok (NInt n).

Definition vfr_message : string :=
  "Variable framerate video streams are not supported".

(** [now] is the text of [datetime.datetime.utcnow().isoformat()]; the
    audio stream and the format, which the function does not read, are
    left out. *)
Definition build_userdata_from_metadata
    (output_filename : string) (video_stream : VideoStream.t) (now : string)
  : result (Dict.t string) :=
  let fps_rate := VideoStream.avg_frame_rate video_stream in
  if negb (String.eqb fps_rate (VideoStream.r_frame_rate video_stream))
  then Raise (BitcException vfr_message)
  else
    let timestamp := now in
    fps <- display_fps fps_rate ;;
    let info_1 :=
      int_str (VideoStream.width video_stream) ++ "x"
        ++ int_str (VideoStream.height video_stream) ++ ", "
        ++ number_str fps ++ " FPS" in
    let color_info :=
      match VideoStream.color_range video_stream with
      | Some c => c
      | None => ""
      end in
    let color_info :=
      if negb (String.eqb color_info "") then color_info ++ ", " else color_info in
    let info_2 :=
      VideoStream.codec_name video_stream ++ ", " ++ color_info
        ++ VideoStream.pix_fmt video_stream in
    Ok [ ("frame_start", "0");
         ("timecode_start", "01:00:00:00");
         ("fps_rate", fps_rate);
         ("heading_title", output_filename);
         ("heading_sub", hd "" (Str.split "." timestamp) ++ "Z");
         ("info_1", info_1);
         ("info_2", info_2) ].

(** ** build_overlay_flags *)

(** The clauses a font reference adds: one per parameter of the font. *)
Definition font_clauses (fonts : json) (v : string) : result (list string) :=
  ks <- keys_of fonts ;;
  if str_in v ks then
    font <- getitem fonts v ;;
    params <- items_of font ;;
    Ok (map (fun p => fst p ++ "=" ++ Repr.py_str (snd p)) params)
  else Ok [].

Definition placeholder (uk : string) : string := "${" ++ uk ++ "}".

(** The loop over [userdata.items()] that replaces the placeholders. *)
Fixpoint substitute (userdata : list (string * json)) (v : string) : result string :=
  match userdata with
  | [] => Ok v
  | (uk, uv) :: rest =>
      let target := placeholder uk in
      if Str.contains target v then
        match uv with
        | JStr u => substitute rest (Str.replace target u v)
        | _ => Raise TypeError
        end
      else substitute rest v
  end.

(** The two replacements that escape [:] and [,]. *)
Definition escape (v : string) : string :=
  let v := Str.replace ":" "\:" v in
  Str.replace "," "\," v.

(** One round of the loop over [item.items()]: what it appends to
    [filters] for the parameter [k] with value [v]. *)
Definition param_clauses (fonts userdata : json) (k : string) (v : json)
  : result (list string) :=
  let v := Repr.py_str v in
  from_font <- (if String.eqb k "font" then font_clauses fonts v else Ok []) ;;
  ud <- items_of userdata ;;
  v <- substitute ud v ;;
  let v := escape v in
  let clause :=
    if String.eqb k "text" || String.eqb k "timecode"
    then k ++ "='" ++ v ++ "'"
    else k ++ "=" ++ v in
  Ok (from_font ++ [clause])%list.

(** One round of the loop over the items: the text added to [drawtexts]. *)
Definition item_drawtext (fonts userdata item : json) : result string :=
  params <- items_of item ;;
  filters <- for_each (fun p => param_clauses fonts userdata (fst p) (snd p)) params ;;
  Ok (Str.join ":" (List.concat filters)).

Definition unknown_preset (preset_name : string) : exn :=
  BitcException
    ("Definition of preset '" ++ preset_name ++ "' does not exist in the config file").

Definition missing_items (preset_name : string) : exn :=
  BitcException
    ("Definition of preset '" ++ preset_name ++ "' does not have the `items` key").

(** The parameters [data], [video_stream] and [format_metadata], which
    the function does not read, are left out. *)
Definition build_overlay_flags (preset_name : string) (config : Config.t)
  : result (list string) :=
  names <- keys_of (Config.get config "presets" (JDict [])) ;;
  if negb (str_in preset_name names) then Raise (unknown_preset preset_name)
  else
    presets <- Config.__getitem__ config "presets" ;;
    preset <- getitem presets preset_name ;;
    preset_keys <- keys_of preset ;;
    if negb (str_in "items" preset_keys) then Raise (missing_items preset_name)
    else
      let userdata := Config.get config "_userdata" (JDict []) in
      let fonts := Config.get config "fonts" (JDict []) in
      items_value <- getitem preset "items" ;;
      items <- iterate items_value ;;
      drawtexts <- for_each (item_drawtext fonts userdata) items ;;
      Ok ["-vf"; Str.join "," (map (fun c => "drawtext=" ++ c) drawtexts)].

(** ** The specification's reading of the operations *)

(** [c] occurs in [s]. *)
Fixpoint occurs (c : ascii) (s : string) : bool :=
  match s with
  | EmptyString => false
  | String a s' => Ascii.eqb a c || occurs c s'
  end.

(** How often [c] occurs in [s]. *)
Fixpoint count (c : ascii) (s : string) : nat :=
  match s with
  | EmptyString => O
  | String a s' => (if Ascii.eqb a c then 1 else 0) + count c s'
  end.

(** Escaping as the specification words it: every [:] and every [,] of
    the value gets one backslash in front, nothing else changes. *)
Fixpoint escape_spec (v : string) : string :=
  match v with
  | EmptyString => EmptyString
  | String c v' =>
      if Ascii.eqb c ":" || Ascii.eqb c ","
      then String "\" (String c (escape_spec v'))
      else String c (escape_spec v')
  end.

(** The clause of one parameter, from its escaped value. *)
Definition clause (k v : string) : string :=
  if String.eqb k "text" || String.eqb k "timecode"
  then k ++ "='" ++ v ++ "'"
  else k ++ "=" ++ v.

(** A parameter value cut into plain text and placeholders. *)
Inductive segment : Type :=
| Text (s : string)
| Placeholder (key : string).

Definition render_segment (g : segment) : string :=
  match g with
  | Text s => s
  | Placeholder k => placeholder k
  end.

(** The texts of [l] one after another. *)
Fixpoint flatten (l : list string) : string :=
  match l with
  | [] => EmptyString
  | x :: rest => x ++ flatten rest
  end.

Definition render (gs : list segment) : string :=
  flatten (map render_segment gs).

(** Substitution as the specification words it: every placeholder whose
    key is in the user data becomes that key's value, at once; every
    other placeholder stays. *)
Definition resolve (ud : Dict.t string) (g : segment) : string :=
  match g with
  | Text s => s
  | Placeholder k =>
      match Dict.get k ud with
      | Some u => u
      | None => placeholder k
      end
  end.

Definition substitute_spec (ud : Dict.t string) (gs : list segment) : string :=
  flatten (map (resolve ud) gs).

(** What replacing the placeholder of [k] by [u] does to one segment. *)
Definition fill (k u : string) (g : segment) : segment :=
  match g with
  | Text s => Text s
  | Placeholder k' => if String.eqb k' k then Text u else Placeholder k'
  end.

(** A user-data namespace of texts, as the configuration stores it. *)
Definition as_json (ud : Dict.t string) : list (string * json) :=
  map (fun kv => (fst kv, JStr (snd kv))) ud.

(** Segments that read back from their text as they are: a text has no
    [$], a placeholder key has neither [$] nor [}]. *)
Definition plain_segment (g : segment) : bool :=
  match g with
  | Text s => negb (occurs "$" s)
  | Placeholder k => negb (occurs "$" k) && negb (occurs "}" k)
  end.

(** User data that neither closes a placeholder early nor brings in a
    new one: no key has a [}], no value has a [$]. *)
Definition plain_entry (kv : string * string) : bool :=
  negb (occurs "}" (fst kv)) && negb (occurs "$" (snd kv)).

(** The configuration with [ud] as its user-data namespace. *)
Definition with_userdata (cfg : Config.t) (ud : Dict.t json) : Config.t :=
  Config.mk (Config.filepath cfg) (Dict.set "_userdata" (JDict ud) (Config.data cfg)).

(** The text of a [KEY=VALUE] entry. *)
Definition entry (kv : string * string) : string := fst kv ++ "=" ++ snd kv.

Definition malformed_entry (item : string) : exn :=
  BitcException ("Badly formatted data entry '" ++ item ++ "'").

(** A pair whose key and value hold no [=]. *)
Definition no_equals (kv : string * string) : bool :=
  negb (occurs "=" (fst kv)) && negb (occurs "=" (snd kv)).

(** The value reached from [item] along the segments [ks], when every
    segment is a key of the mapping reached before it. *)
Fixpoint descend (item : json) (ks : list string) : option json :=
  match ks with
  | [] => Some item
  | k :: rest =>
      match item with
      | JDict d =>
          match Dict.get k d with
          | Some v => descend v rest
          | None => None
          end
      | _ => None
      end
  end.

(** None of the segments [ks] is a key of the mapping [v]; so for
    every [v] that is no mapping. *)
Definition misses (v : json) (ks : list string) : bool :=
  match v with
  | JDict d => forallb (fun k => negb (Dict.mem k d)) ks
  | _ => true
  end.

(** *** Configurations that follow the data model *)

Definition is_dict (v : json) : bool :=
  match v with
  | JDict _ => true
  | _ => false
  end.

Definition is_str (v : json) : bool :=
  match v with
  | JStr _ => true
  | _ => false
  end.

(** [v] is a mapping and every value in it satisfies [p]. *)
Definition mapping_of (p : json -> bool) (v : json) : bool :=
  match v with
  | JDict d => forallb p (Dict.values d)
  | _ => false
  end.

(** A preset: a mapping whose ["items"], when present, is a list of mappings. *)
Definition preset_ok (p : json) : bool :=
  match p with
  | JDict d =>
      match Dict.get "items" d with
      | None => true
      | Some (JList l) => forallb is_dict l
      | Some _ => false
      end
  | _ => false
  end.

Definition entry_ok (p : json -> bool) (o : option json) : bool :=
  match o with
  | None => true
  | Some v => mapping_of p v
  end.

(** Presets are a mapping of presets, fonts a mapping of mappings, and
    the user data a mapping of texts. *)
Definition well_formed (cfg : Config.t) : bool :=
  entry_ok preset_ok (Dict.get "presets" (Config.data cfg))
  && entry_ok is_dict (Dict.get "fonts" (Config.data cfg))
  && entry_ok is_str (Dict.get "_userdata" (Config.data cfg)).

(** The presets of a configuration. *)
Definition presets_of (cfg : Config.t) : Dict.t json :=
  match Dict.get "presets" (Config.data cfg) with
  | Some (JDict ps) => ps
  | _ => []
  end.

(** The ["items"] entry of a preset, when it has one. *)
Definition preset_items (preset : json) : option json :=
  match preset with
  | JDict d => Dict.get "items" d
  | _ => None
  end.

(** *** The scenario of the specification *)

Definition scenario_document : Dict.t json :=
  [ ("presets",
     JDict [("default",
             JDict [("items",
                     JList [JDict [("text", JStr "Hello, World");
                                   ("font", JStr "main")]])])]);
    ("fonts", JDict [("main", JDict [("fontcolor", JStr "0xFFFFFF")])]) ].

(** The same with the font reference written before the text. *)
Definition scenario_document_font_first : Dict.t json :=
  [ ("presets",
     JDict [("default",
             JDict [("items",
                     JList [JDict [("font", JStr "main");
                                   ("text", JStr "Hello, World")]])])]);
    ("fonts", JDict [("main", JDict [("fontcolor", JStr "0xFFFFFF")])]) ].

(** [Config(path)] on a document, then the user data [ud] hydrated. *)
Definition loaded (doc : Dict.t json) (ud : Dict.t json) : result Config.t :=
  cfg <- Config.init "config.json" (Some doc) ;;
  Ok (with_userdata cfg ud).

(** ** The command line *)

Module Args.

(** The namespace that [parse_args] returns. *)
Record t : Type := mk {
  i : string;
  preset : string;
  codec : string;
  bitrate : string;
  profile : option string;
  scale : string;
  audio_codec : string;
  audio_bitrate : string;
  data : option (list string);
  flags : option (list string);
  container : string;
  config : string;
  y : bool;
  output : string
}.

(** The namespace when only [-i] and the output are given: the
    defaults of [init_arg_parser]. *)
Definition defaults (input out : string) : t :=
  mk input "default" "prores_ks" "auto" None "off" "auto" "auto" None None
     "auto" "config.json" false out.

End Args.

(** ** build_ffmpeg_command *)

Definition scaling_message : string := "Scaling feature is not yet implemented".

(** [" ".join(flags).split(" ")] *)
Definition flag_tokens (flags : list string) : list string :=
  Str.split " " (Str.join " " flags).

(** The command is a list whose first entry is whatever the
    configuration holds at [path.ffmpeg]; the other entries are texts.
    An audio stream is a record of the same kind as the video stream,
    of which the index alone is read. [format_metadata], which the
    function does not read, is left out; [Ok None] is the return of
    [None]. *)
Definition build_ffmpeg_command
    (config : Config.t) (args : Args.t) (input_filepath output_filepath : string)
    (video_stream : VideoStream.t) (audio_stream : option VideoStream.t)
  : result (option (list json)) :=
  let ffmpeg := Config.get config "path.ffmpeg" (JStr "ffmpeg") in
  match ffmpeg with
  | JNull => Ok None
  | _ =>
      let cmd :=
        [ffmpeg; JStr "-hide_banner"; JStr "-loglevel"; JStr "warning"; JStr "-stats"] in
      let cmd := (cmd ++ [JStr "-i"; JStr input_filepath])%list in
      let cmd :=
        (cmd ++ [JStr "-map"; JStr ("0:" ++ int_str (VideoStream.index video_stream))])%list in
      let cmd := (cmd ++ [JStr "-c:v"; JStr (Args.codec args)])%list in
      let cmd :=
        if negb (String.eqb (Args.bitrate args) "auto")
        then (cmd ++ [JStr "-b:v"; JStr (Args.bitrate args)])%list
        else cmd in
      let cmd :=
        match Args.profile args with
        | Some profile => (cmd ++ [JStr "-profile:v"; JStr profile])%list
        | None => cmd
        end in
      if negb (String.eqb (Args.scale args) "off")
      then Raise (BitcException scaling_message)
      else
        overlay <- build_overlay_flags (Args.preset args) config ;;
        let cmd := (cmd ++ map JStr overlay)%list in
        let cmd :=
          match audio_stream with
          | Some audio =>
              if negb (String.eqb (Args.audio_codec args) "off") then
                let cmd :=
                  (cmd ++ [JStr "-map";
                           JStr ("0:" ++ int_str (VideoStream.index audio))])%list in
                let cmd :=
                  if negb (String.eqb (Args.audio_codec args) "auto")
                  then (cmd ++ [JStr "-c:a"; JStr (Args.audio_codec args)])%list
                  else cmd in
                if negb (String.eqb (Args.audio_bitrate args) "auto")
                then (cmd ++ [JStr "-b:a"; JStr (Args.audio_bitrate args)])%list
                else cmd
              else (cmd ++ [JStr "-an"])%list
          | None => (cmd ++ [JStr "-an"])%list
          end in
        let cmd :=
          match Args.flags args with
          | Some flags => (cmd ++ map JStr (flag_tokens flags))%list
          | None => cmd
          end in
        let cmd :=
          if negb (String.eqb (Args.container args) "auto")
          then (cmd ++ [JStr "-f"; JStr (Args.container args)])%list
          else cmd in
        let cmd := if Args.y args then (cmd ++ [JStr "-y"])%list else cmd in
        let cmd := (cmd ++ [JStr output_filepath])%list in
        Ok (Some cmd)
  end.

(** ** probe_media and main *)

Module Probe.

(** One entry of ["streams"]: its ["codec_type"] and the entries that
    the program reads from it. *)
Record stream : Type := mk_stream { codec_type : string; entries : VideoStream.t }.

(** What the probe prints, parsed. *)
Record t : Type := mk { format : json; streams : list stream }.

End Probe.

(** The arguments the probe is started with. *)
Definition probe_command (ffprobe : json) (filename : string) : list string :=
  [Repr.py_str ffprobe; "-hide_banner"; "-show_format"; "-show_streams";
   "-of"; "json"; "-loglevel"; "quiet"; filename].

(** [run] is the probe: from its arguments to its parsed output.
    [None] is the empty mapping returned when no probe is configured. *)
Definition probe_media
    (run : list string -> Probe.t) (config : Config.t) (filename : string)
  : option Probe.t :=
  let ffprobe := Config.get config "path.ffprobe" (JStr "ffprobe") in
  match ffprobe with
  | JNull => None
  | _ => Some (run (probe_command ffprobe filename))
  end.

(** The loop of [main] that picks the streams. *)
Fixpoint select_streams
    (video_stream audio_stream : option Probe.stream) (streams : list Probe.stream)
  : option Probe.stream * option Probe.stream :=
  match streams with
  | [] => (video_stream, audio_stream)
  | stream :: rest =>
      match video_stream, String.eqb (Probe.codec_type stream) "video" with
      | None, true => select_streams (Some stream) audio_stream rest
      | _, _ =>
          match audio_stream, String.eqb (Probe.codec_type stream) "audio" with
          | None, true => select_streams video_stream (Some stream) rest
          | _, _ => select_streams video_stream audio_stream rest
          end
      end
  end.

(** [os.path.basename] on a path with [/] as separator. *)
Definition basename (path : string) : string := last (Str.split "/" path) "".

(** The arguments [subprocess.run] accepts: texts. *)
Fixpoint argv (cmd : list json) : result (list string) :=
  match cmd with
  | [] => Ok []
  | JStr s :: rest => r <- argv rest ;; Ok (s :: r)
  | _ :: _ => Raise TypeError
  end.

Module Env.

(** What [main] reads from outside: the parsed content of the file at a
    path ([None] when there is no such file), whether a path exists,
    [os.path.abspath], the probe, the clock, and the encoder with its
    return code. *)
Record t : Type := mk {
  read_config : string -> option (Dict.t json);
  path_exists : string -> bool;
  abspath : string -> string;
  ffprobe : list string -> Probe.t;
  now : string;
  encode : list string -> Z
}.

End Env.

Definition missing_input (input_filepath : string) : exn :=
  BitcException ("Input file '" ++ input_filepath ++ "' does not exist").

Definition no_video_stream (input_filepath : string) : exn :=
  BitcException
    ("Input file '" ++ input_filepath ++ "' does not have any video streams").

Definition no_command : exn :=
  BitcException "There was an error while generating the encode command".

(** [main], with the parsed arguments given; what it prints is left
    out. *)
Definition main (env : Env.t) (args : Args.t) : result Z :=
  config <- Config.init (Args.config args) (Env.read_config env (Args.config args)) ;;
  let input_filepath := Env.abspath env (Args.i args) in
  let output_filepath := Env.abspath env (Args.output args) in
  if negb (Env.path_exists env input_filepath)
  then Raise (missing_input input_filepath)
  else
    match probe_media (Env.ffprobe env) config input_filepath with
    | None => Raise KeyError
    | Some metadata =>
        match select_streams None None (Probe.streams metadata) with
        | (None, _) => Raise (no_video_stream input_filepath)
        | (Some video_stream, audio_stream) =>
            ud <- build_userdata_from_metadata (basename output_filepath)
                    (Probe.entries video_stream) (Env.now env) ;;
            let '(config, hydrated) :=
              Config.hydrate_userdata config (Config.DataDict ud) in
            _ <- hydrated ;;
            let '(config, hydrated) :=
              Config.hydrate_userdata config
                match Args.data args with
                | Some l => Config.DataList l
                | None => Config.NoData
                end in
            _ <- hydrated ;;
            command <- build_ffmpeg_command config args input_filepath
                         output_filepath (Probe.entries video_stream)
                         (option_map Probe.entries audio_stream) ;;
            match command with
            | None => Raise no_command
            | Some cmd =>
                arguments <- argv cmd ;;
                Ok (Env.encode env arguments)
            end
        end
    end.

(** The exit status of the script: [main]'s return value, or 1 when it
    raised. *)
Definition exit_status (r : result Z) : Z :=
  match r with
  | Ok code => code
  | Raise _ => 1%Z
  end.

(** The line the script writes for an error of its own. *)
Definition error_line (r : result Z) : option string :=
  match r with
  | Raise (BitcException msg) => Some ("ERROR: " ++ msg)
  | _ => None
  end.

(** ** Further readings of the operations *)

(** The configuration after hydrating from each of [srcs] in turn,
    whether a hydration returned or raised. *)
Definition hydrations (cfg : Config.t) (srcs : list Config.source) : Config.t :=
  fold_left (fun c src => fst (Config.hydrate_userdata c src)) srcs cfg.

(** A font whose color can be looked up: a mapping whose ["fontcolor"],
    when present, is no list and no mapping. *)
Definition font_ok (font : json) : bool :=
  match font with
  | JDict f =>
      match Dict.get "fontcolor" f with
      | Some (JList _) | Some (JDict _) => false
      | _ => true
      end
  | _ => false
  end.

(** A font color after loading: the color it names, or itself. *)
Definition resolved_color (colors : Dict.t json) (fc : json) : json :=
  match fc with
  | JStr name =>
      match Dict.get name colors with
      | Some c => c
      | None => fc
      end
  | _ => fc
  end.

(** A font after loading. *)
Definition resolved_font (colors : Dict.t json) (font : json) : json :=
  match font with
  | JDict f =>
      match Dict.get "fontcolor" f with
      | Some fc => JDict (Dict.set "fontcolor" (resolved_color colors fc) f)
      | None => font
      end
  | _ => font
  end.

(** An item none of whose values, as texts, has a [$]. *)
Definition dollar_free_item (item : json) : bool :=
  match item with
  | JDict d => forallb (fun p => negb (occurs "$" (Repr.py_str (snd p)))) d
  | _ => true
  end.

(** A text that substitution and escaping leave as it is. *)
Definition plain_value (v : string) : bool :=
  negb (occurs "$" v) && negb (occurs ":" v) && negb (occurs "," v).

(** The stream records of one kind. *)
Definition of_kind (kind : string) (stream : Probe.stream) : bool :=
  String.eqb (Probe.codec_type stream) kind.

(** The entries every command starts with. *)
Definition command_head
    (tool : json) (args : Args.t) (input_filepath : string) (video_stream : VideoStream.t)
  : list json :=
  [tool; JStr "-hide_banner"; JStr "-loglevel"; JStr "warning"; JStr "-stats";
   JStr "-i"; JStr input_filepath;
   JStr "-map"; JStr ("0:" ++ int_str (VideoStream.index video_stream));
   JStr "-c:v"; JStr (Args.codec args)].

(** The entries for the video bitrate and profile, when asked for. *)
Definition video_options (args : Args.t) : list json :=
  ((if negb (String.eqb (Args.bitrate args) "auto")
    then [JStr "-b:v"; JStr (Args.bitrate args)] else [])
   ++ match Args.profile args with
      | Some profile => [JStr "-profile:v"; JStr profile]
      | None => []
      end)%list.

(** The entries for the audio: the stream with its codec and bitrate
    when asked for, or [-an]. *)
Definition audio_options (args : Args.t) (audio_stream : option VideoStream.t)
  : list json :=
  match audio_stream with
  | Some audio =>
      if negb (String.eqb (Args.audio_codec args) "off") then
        ([JStr "-map"; JStr ("0:" ++ int_str (VideoStream.index audio))]
         ++ (if negb (String.eqb (Args.audio_codec args) "auto")
             then [JStr "-c:a"; JStr (Args.audio_codec args)] else [])
         ++ (if negb (String.eqb (Args.audio_bitrate args) "auto")
             then [JStr "-b:a"; JStr (Args.audio_bitrate args)] else []))%list
      else [JStr "-an"]
  | None => [JStr "-an"]
  end.

(** The entries between the audio and the output path. *)
Definition closing_options (args : Args.t) : list json :=
  (match Args.flags args with
   | Some flags => map JStr (flag_tokens flags)
   | None => []
   end
   ++ (if negb (String.eqb (Args.container args) "auto")
       then [JStr "-f"; JStr (Args.container args)] else [])
   ++ (if Args.y args then [JStr "-y"] else []))%list.

(** The configuration sets [tool] of [path] to [null]. *)
Definition tool_is_null (cfg : Config.t) (tool : string) : Prop :=
  exists p, Dict.get "path" (Config.data cfg) = Some (JDict p)
            /\ Dict.get tool p = Some JNull.

(** * Properties *)

(** ** Strings *)

Section StrFacts.

Lemma prefix_empty (s : string) : String.prefix "" s = true.
Proof. destruct s; reflexivity. Qed.

Lemma prefix_cons (a b : ascii) (s1 s2 : string) :
  String.prefix (String a s1) (String b s2)
  = Ascii.eqb a b && String.prefix s1 s2.
Proof.
  simpl. destruct (ascii_dec a b) as [e | n].
  - subst. now rewrite Ascii.eqb_refl.
  - apply Ascii.eqb_neq in n. now rewrite n.
Qed.

Lemma occurs_append (c : ascii) (a b : string) :
  occurs c (a ++ b) = occurs c a || occurs c b.
Proof.
  induction a as [| x a IH]; simpl; [reflexivity |].
  rewrite IH. now rewrite orb_assoc.
Qed.


Lemma count_zero_occurs (c : ascii) (s : string) :
  count c s = 0 <-> occurs c s = false.
Proof.
  induction s as [| a s IH]; simpl; [tauto |].
  destruct (Ascii.eqb a c); simpl; [split; [lia | discriminate] | exact IH].
Qed.

(** *** Replacing one character *)

Lemma replace_char_cons (c a : ascii) (new s : string) :
  Str.replace (String c "") new (String a s)
  = if Ascii.eqb c a
    then new ++ Str.replace (String c "") new s
    else String a (Str.replace (String c "") new s).
Proof.
  unfold Str.replace. cbn [Str.replace_from].
  rewrite prefix_cons, prefix_empty, andb_true_r. reflexivity.
Qed.

(** *** Replacing a text that does not occur *)

Lemma replace_from_absent (old new s : string) :
  Str.contains old s = false -> Str.replace_from old new 0 s = s.
Proof.
  induction s as [| a s IH]; intro H; [reflexivity |].
  cbn [Str.contains] in H. apply orb_false_iff in H as [Hp Hc].
  cbn [Str.replace_from]. rewrite Hp, (IH Hc). reflexivity.
Qed.

Lemma replace_absent (old new s : string) :
  Str.contains old s = false -> Str.replace old new s = s.
Proof.
  destruct old as [| a old]; intro H.
  - destruct s; discriminate H.
  - apply replace_from_absent, H.
Qed.

(** A text that starts with [c] is not in a text without [c]. *)
Lemma contains_absent_head (c : ascii) (t s : string) :
  occurs c s = false -> Str.contains (String c t) s = false.
Proof.
  induction s as [| a s IH]; intro H; [reflexivity |].
  cbn [occurs] in H. apply orb_false_iff in H as [Ha Hs].
  cbn [Str.contains]. rewrite prefix_cons, (IH Hs).
  rewrite Ascii.eqb_sym, Ha. reflexivity.
Qed.

(** The scan passes over [n] characters without looking at them. *)
Lemma replace_from_skip (old new a b : string) :
  Str.replace_from old new (String.length a) (a ++ b)
  = Str.replace_from old new 0 b.
Proof.
  induction a as [| x a IH]; [reflexivity |].
  simpl. exact IH.
Qed.

Lemma replace_from_step (old new : string) (c : ascii) (s : string) :
  Str.replace_from old new 0 (String c s)
  = if String.prefix old (String c s)
    then new ++ Str.replace_from old new (String.length old - 1) s
    else String c (Str.replace_from old new 0 s).
Proof. reflexivity. Qed.

(** A stretch without the first character of [old] is copied. *)
Lemma replace_from_copy (c : ascii) (t new a b : string) :
  occurs c a = false ->
  Str.replace_from (String c t) new 0 (a ++ b)
  = a ++ Str.replace_from (String c t) new 0 b.
Proof.
  induction a as [| x a IH]; intro H; [reflexivity |].
  cbn [occurs] in H. apply orb_false_iff in H as [Hx Ha].
  cbn [append Str.replace_from]. rewrite prefix_cons.
  rewrite Ascii.eqb_sym, Hx. cbn [andb]. rewrite (IH Ha). reflexivity.
Qed.

(** *** Splitting at one character *)

Lemma split_char_cons (c a : ascii) (s : string) :
  Str.split (String c "") (String a s)
  = if Ascii.eqb c a
    then "" :: Str.split (String c "") s
    else match Str.split (String c "") s with
         | h :: t => String a h :: t
         | [] => [String a ""]
         end.
Proof.
  unfold Str.split. cbn [Str.split_from].
  rewrite prefix_cons, prefix_empty, andb_true_r. reflexivity.
Qed.

Lemma split_char_absent (c : ascii) (s : string) :
  occurs c s = false -> Str.split (String c "") s = [s].
Proof.
  induction s as [| a s IH]; intro H; [reflexivity |].
  cbn [occurs] in H. apply orb_false_iff in H as [Ha Hs].
  rewrite split_char_cons, Ascii.eqb_sym, Ha, (IH Hs). reflexivity.
Qed.

Lemma split_char_append (c : ascii) (k v : string) :
  occurs c k = false ->
  Str.split (String c "") (k ++ String c v) = k :: Str.split (String c "") v.
Proof.
  induction k as [| a k IH]; intro H.
  - cbn [append]. rewrite split_char_cons, Ascii.eqb_refl. reflexivity.
  - cbn [occurs] in H. apply orb_false_iff in H as [Ha Hk].
    cbn [append]. rewrite split_char_cons, Ascii.eqb_sym, Ha, (IH Hk).
    reflexivity.
Qed.

Lemma split_char_length (c : ascii) (s : string) :
  List.length (Str.split (String c "") s) = S (count c s).
Proof.
  induction s as [| a s IH]; [reflexivity |].
  rewrite split_char_cons. cbn [count]. rewrite (Ascii.eqb_sym a c).
  destruct (Ascii.eqb c a); cbn [List.length].
  - rewrite IH. reflexivity.
  - destruct (Str.split (String c "") s); cbn [List.length] in *; lia.
Qed.

(** A text with exactly one [c] is a text, [c], and a text. *)
Lemma count_one_shape (c : ascii) (s : string) :
  count c s = 1 ->
  exists k v, s = k ++ String c v /\ occurs c k = false /\ occurs c v = false.
Proof.
  induction s as [| a s IH]; cbn [count]; [discriminate |].
  destruct (Ascii.eqb a c) eqn:E; intro H.
  - apply Ascii.eqb_eq in E. subst a.
    exists "", s. repeat split. apply count_zero_occurs. lia.
  - destruct (IH H) as (k & v & -> & Hk & Hv).
    exists (String a k), v. cbn [append occurs]. rewrite E, Hk. auto.
Qed.

End StrFacts.

(** ** Escaping *)

Section Escaping.

Lemma escape_cons (a : ascii) (v : string) :
  escape (String a v)
  = if Ascii.eqb a ":" || Ascii.eqb a ","
    then String "\" (String a (escape v))
    else String a (escape v).
Proof.
  unfold escape. rewrite replace_char_cons.
  destruct (Ascii.eqb ":" a) eqn:Ec.
  - apply Ascii.eqb_eq in Ec. subst a. cbn [append].
    now rewrite !replace_char_cons.
  - rewrite replace_char_cons, (Ascii.eqb_sym a ":"), Ec, (Ascii.eqb_sym a ",").
    destruct (Ascii.eqb "," a) eqn:Em; [| reflexivity].
    apply Ascii.eqb_eq in Em. subst a. reflexivity.
Qed.

Lemma escape_refines_spec (v : string) : escape v = escape_spec v.
Proof.
  induction v as [| a v IH]; [reflexivity |].
  rewrite escape_cons. cbn [escape_spec]. rewrite IH. reflexivity.
Qed.

Lemma escape_spec_length (v : string) :
  String.length (escape_spec v)
  = String.length v + count ":" v + count "," v.
Proof.
  induction v as [| a v IH]; [reflexivity |].
  cbn [escape_spec count String.length].
  destruct (Ascii.eqb a ":") eqn:Ec.
  - apply Ascii.eqb_eq in Ec. subst a. cbn. lia.
  - destruct (Ascii.eqb a ","); cbn; lia.
Qed.

(** C5: in the clause of a parameter, every [:] and every [,] of the
    value (after placeholder substitution) has exactly one backslash in
    front and no other character is changed: the two replacements
    together are [escape_spec], which looks at each character of the
    original value once, so the backslash set before a colon is never
    escaped again, and the escaped value is longer than the value by the
    number of its colons and commas. *)
Theorem escape_one_backslash_each :
  (forall v, escape v = escape_spec v)
  /\ (forall v,
        String.length (escape v)
        = String.length v + count ":" v + count "," v)
  /\ (forall fonts userdata k v,
        param_clauses fonts userdata k v
        = (from_font <- (if String.eqb k "font"
                         then font_clauses fonts (Repr.py_str v)
                         else Ok []) ;;
           ud <- items_of userdata ;;
           s <- substitute ud (Repr.py_str v) ;;
           Ok (from_font ++ [clause k (escape_spec s)])%list)).
Proof.
  split; [exact escape_refines_spec | split].
  - intro v. rewrite escape_refines_spec. apply escape_spec_length.
  - intros fonts userdata k v. unfold param_clauses, clause.
    destruct (if String.eqb k "font" then _ else _) as [fc | e]; [| reflexivity].
    cbn [bind]. destruct (items_of userdata) as [ud | e]; [| reflexivity].
    cbn [bind]. destruct (substitute ud (Repr.py_str v)) as [s | e]; [| reflexivity].
    cbn [bind]. rewrite escape_refines_spec. reflexivity.
Qed.

End Escaping.

(** ** Placeholder substitution *)

Section Substitution.

Lemma placeholder_unfold (k : string) :
  placeholder k = String "$" (String "{" (k ++ "}")).
Proof. reflexivity. Qed.

(** A value without [$] holds no placeholder and is left as it is. *)
Lemma substitute_no_dollar (ud : list (string * json)) (v : string) :
  occurs "$" v = false -> substitute ud v = Ok v.
Proof.
  intro H. induction ud as [| [uk uv] ud IH]; [reflexivity |].
  cbn [substitute]. rewrite placeholder_unfold.
  rewrite (contains_absent_head _ _ _ H). exact IH.
Qed.

(** With texts as values the loop is a chain of replacements. *)
Lemma substitute_cons (k u : string) (ud : Dict.t string) (v : string) :
  substitute (as_json ((k, u) :: ud)) v
  = substitute (as_json ud) (Str.replace (placeholder k) u v).
Proof.
  cbn [as_json map fst snd substitute].
  destruct (Str.contains (placeholder k) v) eqn:E; [reflexivity |].
  rewrite (replace_absent _ _ _ E). reflexivity.
Qed.

(** Two keys without [}] open the same placeholder only when equal. *)
Lemma prefix_closing (k k' rest : string) :
  occurs "}" k = false -> occurs "}" k' = false ->
  String.prefix (k ++ "}") ((k' ++ "}") ++ rest) = String.eqb k k'.
Proof.
  revert k'. induction k as [| a k IH]; intros [| b k'] Hk Hk'.
  - cbn [append]. rewrite prefix_cons, Ascii.eqb_refl. apply prefix_empty.
  - cbn [occurs] in Hk'. apply orb_false_iff in Hk' as [Hb _].
    cbn [append]. rewrite prefix_cons, Ascii.eqb_sym, Hb. reflexivity.
  - cbn [occurs] in Hk. apply orb_false_iff in Hk as [Ha _].
    cbn [append]. rewrite prefix_cons, Ha. reflexivity.
  - cbn [occurs] in Hk, Hk'.
    apply orb_false_iff in Hk as [_ Hk]. apply orb_false_iff in Hk' as [_ Hk'].
    cbn [append String.eqb]. rewrite prefix_cons, (IH k' Hk Hk'). reflexivity.
Qed.

Lemma render_cons (g : segment) (gs : list segment) :
  render (g :: gs) = render_segment g ++ render gs.
Proof. reflexivity. Qed.

(** One replacement, read on the segments. *)
Lemma replace_fills (k u : string) (gs : list segment) :
  occurs "}" k = false ->
  forallb plain_segment gs = true ->
  Str.replace (placeholder k) u (render gs) = render (map (fill k u) gs).
Proof.
  intros Hk. rewrite placeholder_unfold. unfold Str.replace.
  induction gs as [| g gs IH]; intro Hgs; [reflexivity |].
  cbn [forallb] in Hgs. apply andb_true_iff in Hgs as [Hg Hgs].
  cbn [map]. rewrite !render_cons. specialize (IH Hgs).
  destruct g as [s | k']; cbn [plain_segment] in Hg; cbn [fill render_segment].
  - apply negb_true_iff in Hg.
    rewrite (replace_from_copy _ _ _ _ _ Hg), IH. reflexivity.
  - apply andb_true_iff in Hg as [Hd Hc].
    apply negb_true_iff in Hd. apply negb_true_iff in Hc.
    rewrite placeholder_unfold. cbn [append]. rewrite replace_from_step.
    rewrite !prefix_cons, !Ascii.eqb_refl. cbn [andb].
    rewrite (prefix_closing k k' _ Hk Hc), String.eqb_sym.
    destruct (String.eqb k' k) eqn:E.
    + apply String.eqb_eq in E. subst k'.
      change (String.length (String "$" (String "{" (k ++ "}"))) - 1)
        with (String.length (String "{" (k ++ "}"))).
      change (String "{" ((k ++ "}") ++ render gs))
        with (String "{" (k ++ "}") ++ render gs).
      rewrite replace_from_skip, IH. reflexivity.
    + change (String "{" ((k' ++ "}") ++ render gs))
        with (String "{" (k' ++ "}") ++ render gs).
      rewrite replace_from_copy, IH.
      * cbn [render_segment]. rewrite placeholder_unfold. reflexivity.
      * cbn [occurs]. rewrite occurs_append, Hd. reflexivity.
Qed.

Lemma fill_plain (k u : string) (gs : list segment) :
  occurs "$" u = false ->
  forallb plain_segment gs = true ->
  forallb plain_segment (map (fill k u) gs) = true.
Proof.
  intros Hu. induction gs as [| g gs IH]; intro H; [reflexivity |].
  cbn [forallb] in H. apply andb_true_iff in H as [Hg Hgs].
  cbn [map forallb]. rewrite (IH Hgs), andb_true_r.
  destruct g as [s | k']; cbn [fill]; [exact Hg |].
  destruct (String.eqb k' k); [| exact Hg].
  cbn [plain_segment]. now rewrite Hu.
Qed.

Lemma resolve_fill (k u : string) (ud : Dict.t string) (g : segment) :
  resolve ud (fill k u g) = resolve ((k, u) :: ud) g.
Proof.
  destruct g as [s | k']; [reflexivity |].
  cbn [fill resolve Dict.get].
  destruct (String.eqb k' k); reflexivity.
Qed.

Lemma substitute_spec_fill (k u : string) (ud : Dict.t string) (gs : list segment) :
  substitute_spec ud (map (fill k u) gs) = substitute_spec ((k, u) :: ud) gs.
Proof.
  unfold substitute_spec. rewrite map_map. f_equal.
  apply map_ext. intro g. apply resolve_fill.
Qed.

(** C6, as amended: for a value made of texts without [$] and of
    placeholders whose keys have neither [$] nor [}], and for user data
    whose keys have no [}] and whose values have no [$], every
    placeholder of a key in the user data is replaced by that key's
    value and every other placeholder is left as it is (here before the
    escaping of [:] and [,], which comes after). *)
Theorem substitute_replaces_known_keeps_unknown
    (ud : Dict.t string) (gs : list segment) :
  forallb plain_entry ud = true ->
  forallb plain_segment gs = true ->
  substitute (as_json ud) (render gs) = Ok (substitute_spec ud gs).
Proof.
  revert gs. induction ud as [| [k u] ud IH]; intros gs Hud Hgs.
  - cbn [as_json map substitute]. unfold substitute_spec, render.
    apply f_equal, f_equal, map_ext. now intros [s | k].
  - cbn [forallb] in Hud. apply andb_true_iff in Hud as [Hku Hud].
    unfold plain_entry in Hku. cbn [fst snd] in Hku.
    apply andb_true_iff in Hku as [Hk Hu].
    apply negb_true_iff in Hk. apply negb_true_iff in Hu.
    rewrite substitute_cons, (replace_fills k u gs Hk Hgs).
    rewrite (IH _ Hud (fill_plain k u gs Hu Hgs)), substitute_spec_fill.
    reflexivity.
Qed.

Lemma substitute_replaces_known_keeps_unknown_witness :
  let ud := [("title", "My Clip")] in
  let gs := [Text "a: "; Placeholder "title"; Text " / "; Placeholder "other"] in
  forallb plain_entry ud = true
  /\ forallb plain_segment gs = true
  /\ substitute (as_json ud) (render gs) = Ok "a: My Clip / ${other}".
Proof.
  cbv zeta. split; [reflexivity | split; [reflexivity |]].
  apply (substitute_replaces_known_keeps_unknown
           [("title", "My Clip")]
           [Text "a: "; Placeholder "title"; Text " / "; Placeholder "other"]);
    reflexivity.
Defined.

(** C6, as stated, fails: the keys are replaced one after another, so
    a value that holds a placeholder is substituted again by a later
    key, and the output shows neither the first key's value nor its
    placeholder; with the same two entries in the other order the
    output is the first key's value. *)
Lemma substitute_chains :
  let ud := [("a", "${b}"); ("b", "X")] in
  let gs := [Placeholder "a"] in
  substitute_spec ud gs = "${b}"
  /\ substitute (as_json ud) (render gs) = Ok "X"
  /\ substitute (as_json ud) (render gs) <> Ok (substitute_spec ud gs)
  /\ substitute (as_json [("b", "X"); ("a", "${b}")]) (render gs) = Ok "${b}".
Proof.
  cbv zeta. repeat split; try reflexivity.
  vm_compute. discriminate.
Qed.

End Substitution.

(** ** The overlay compiler *)

Section Overlay.

Lemma str_in_keys {V : Type} (k : string) (d : Dict.t V) :
  str_in k (Dict.keys d) = Dict.mem k d.
Proof.
  unfold str_in, Dict.mem. induction d as [| [k' v] d IH]; [reflexivity |].
  cbn [Dict.keys map fst existsb Dict.get] in *.
  destruct (String.eqb k k'); [reflexivity | exact IH].
Qed.

Lemma get_presets (cfg : Config.t) (default : json) :
  Config.get cfg "presets" default
  = match Dict.get "presets" (Config.data cfg) with
    | Some v => v
    | None => default
    end.
Proof. reflexivity. Qed.

Lemma get_fonts (cfg : Config.t) (default : json) :
  Config.get cfg "fonts" default
  = match Dict.get "fonts" (Config.data cfg) with
    | Some v => v
    | None => default
    end.
Proof. reflexivity. Qed.

Lemma get_userdata (cfg : Config.t) (default : json) :
  Config.get cfg "_userdata" default
  = match Dict.get "_userdata" (Config.data cfg) with
    | Some v => v
    | None => default
    end.
Proof. reflexivity. Qed.

(** Past the two checks, the function is the loop over the items. *)
Lemma build_overlay_flags_items
    (cfg : Config.t) (name : string) (ps preset : Dict.t json) (its : json) :
  Dict.get "presets" (Config.data cfg) = Some (JDict ps) ->
  Dict.get name ps = Some (JDict preset) ->
  Dict.get "items" preset = Some its ->
  build_overlay_flags name cfg
  = (items <- iterate its ;;
     drawtexts <- for_each
                    (item_drawtext (Config.get cfg "fonts" (JDict []))
                       (Config.get cfg "_userdata" (JDict []))) items ;;
     Ok ["-vf"; Str.join "," (map (fun c => "drawtext=" ++ c) drawtexts)]).
Proof.
  intros Hps Hname Hits. unfold build_overlay_flags, Config.__getitem__.
  rewrite get_presets, Hps. cbn [keys_of bind getitem].
  rewrite str_in_keys. unfold Dict.mem. rewrite Hps, Hname.
  cbn [negb bind keys_of getitem]. rewrite Hname. cbn [bind keys_of getitem].
  rewrite str_in_keys. unfold Dict.mem. rewrite Hits.
  reflexivity.
Qed.

(** The clauses of a font reference, whatever the font. *)
Lemma font_clauses_dict (fd : Dict.t json) (v : string) :
  font_clauses (JDict fd) v
  = match Dict.get v fd with
    | Some (JDict params) =>
        Ok (map (fun p => fst p ++ "=" ++ Repr.py_str (snd p)) params)
    | Some _ => Raise AttributeError
    | None => Ok []
    end.
Proof.
  unfold font_clauses. cbn [keys_of bind getitem].
  rewrite str_in_keys. unfold Dict.mem.
  destruct (Dict.get v fd) as [[| | | | | |] |]; reflexivity.
Qed.

(** A parameter that is no font reference gives its one clause. *)
Lemma param_clauses_other
    (fonts : json) (ud : list (string * json)) (k : string) (v : json) (s : string) :
  String.eqb k "font" = false ->
  substitute ud (Repr.py_str v) = Ok s ->
  param_clauses fonts (JDict ud) k v = Ok [clause k (escape_spec s)].
Proof.
  intros Hk Hs. unfold param_clauses, clause. rewrite Hk.
  cbn [bind items_of]. rewrite Hs. cbn [bind].
  rewrite escape_refines_spec. reflexivity.
Qed.

(** C2, as amended: a parameter named [font] whose value names a font
    of the configuration contributes one [name=value] clause per
    parameter of that font, in the font's order and with the font's
    values as they are, and after them the clause [font=value] of the
    parameter itself (placeholders replaced, [:] and [,] escaped); when
    the value names no font it contributes that last clause alone. *)
Theorem font_reference_clauses
    (fd : Dict.t json) (ud : list (string * json)) (v : json) (s : string) :
  substitute ud (Repr.py_str v) = Ok s ->
  param_clauses (JDict fd) (JDict ud) "font" v
  = match Dict.get (Repr.py_str v) fd with
    | Some (JDict params) =>
        Ok (map (fun p => (fst p ++ "=" ++ Repr.py_str (snd p))%string) params
              ++ [("font=" ++ escape_spec s)%string])%list
    | Some _ => Raise AttributeError
    | None => Ok ["font=" ++ escape_spec s]
    end.
Proof.
  intro Hs. unfold param_clauses.
  change (String.eqb "font" "font") with true. cbv iota.
  rewrite font_clauses_dict.
  destruct (Dict.get (Repr.py_str v) fd) as [[| | | | | | params] |];
    try reflexivity; cbn [bind items_of]; rewrite Hs; cbn [bind];
    rewrite escape_refines_spec; reflexivity.
Qed.

Lemma font_reference_clauses_witness :
  let fd := [("main", JDict [("fontcolor", JStr "0xFFFFFF"); ("fontsize", JInt 24)])] in
  let ud := [("show", JStr "a:b")] in
  substitute ud "main" = Ok "main"
  /\ param_clauses (JDict fd) (JDict ud) "font" (JStr "main")
     = Ok ["fontcolor=0xFFFFFF"; "fontsize=24"; "font=main"]
  /\ param_clauses (JDict fd) (JDict ud) "font" (JStr "${show}")
     = Ok ["font=a\:b"].
Proof.
  cbv zeta. split; [reflexivity | split].
  - apply (font_reference_clauses
             [("main", JDict [("fontcolor", JStr "0xFFFFFF"); ("fontsize", JInt 24)])]
             [("show", JStr "a:b")] (JStr "main") "main").
    reflexivity.
  - apply (font_reference_clauses
             [("main", JDict [("fontcolor", JStr "0xFFFFFF"); ("fontsize", JInt 24)])]
             [("show", JStr "a:b")] (JStr "${show}") "a:b").
    reflexivity.
Defined.

(** C2, as stated, fails: the parameter [font] is also compiled into a
    clause of its own, after the clauses of a known font and alone for
    an unknown one. *)
Lemma font_reference_adds_own_clause :
  let fonts := JDict [("main", JDict [("fontcolor", JStr "0xFFFFFF")])] in
  param_clauses fonts (JDict []) "font" (JStr "main")
  <> Ok ["fontcolor=0xFFFFFF"]
  /\ param_clauses fonts (JDict []) "font" (JStr "nope") <> Ok [].
Proof.
  cbv zeta. split; vm_compute; discriminate.
Qed.

Lemma font_reference_example :
  let fonts := JDict [("main", JDict [("fontcolor", JStr "0xFFFFFF")])] in
  param_clauses fonts (JDict []) "font" (JStr "main")
  = Ok ["fontcolor=0xFFFFFF"; "font=main"]
  /\ param_clauses fonts (JDict []) "font" (JStr "nope") = Ok ["font=nope"].
Proof. split; reflexivity. Qed.

(** C1, as amended: for the scenario's configuration (preset
    [default] with the one item [{text: "Hello, World", font: "main"}],
    font [main] with [fontcolor=0xFFFFFF] alone, no colors), and
    whatever the user data, compiling preset [default] gives [-vf] and
    the chain [drawtext=text='Hello\, World':fontcolor=0xFFFFFF:font=main]:
    the clauses come in the order of the item's parameters, and the
    font reference ends with its own clause [font=main]. *)
Theorem scenario_filter_chain (ud : Dict.t json) :
  (cfg <- loaded scenario_document ud ;; build_overlay_flags "default" cfg)
  = Ok ["-vf"; "drawtext=text='Hello\, World':fontcolor=0xFFFFFF:font=main"].
Proof.
  unfold loaded.
  change (Config.init "config.json" (Some scenario_document))
    with (Ok (Config.mk "config.json"
                (scenario_document ++ [("_userdata", JDict [])])%list)).
  cbn [bind]. erewrite build_overlay_flags_items by reflexivity.
  change (Config.get _ "_userdata" _) with (JDict ud).
  change (Config.get _ "fonts" _)
    with (JDict [("main", JDict [("fontcolor", JStr "0xFFFFFF")])]).
  cbn [iterate bind for_each]. unfold item_drawtext.
  cbn [items_of bind for_each fst snd].
  rewrite (param_clauses_other _ ud "text" (JStr "Hello, World") "Hello, World")
    by (reflexivity || apply substitute_no_dollar; reflexivity).
  assert (Hfont :
            param_clauses (JDict [("main", JDict [("fontcolor", JStr "0xFFFFFF")])])
              (JDict ud) "font" (JStr "main")
            = Ok ["fontcolor=0xFFFFFF"; "font=main"]).
  { unfold param_clauses.
    change (font_clauses _ (Repr.py_str (JStr "main")))
      with (Ok (A := list string) ["fontcolor=0xFFFFFF"]).
    cbn [String.eqb Ascii.eqb Bool.eqb bind items_of Repr.py_str].
    rewrite (substitute_no_dollar ud "main") by reflexivity. reflexivity. }
  rewrite Hfont. reflexivity.
Qed.

(** C1, as stated, fails, in the item's order of the scenario and
    also with the font reference written first. *)
Lemma scenario_chain_differs :
  (cfg <- loaded scenario_document [] ;; build_overlay_flags "default" cfg)
  <> Ok ["-vf"; "drawtext=fontcolor=0xFFFFFF:text='Hello\, World'"]
  /\ (cfg <- loaded scenario_document_font_first [] ;;
      build_overlay_flags "default" cfg)
     <> Ok ["-vf"; "drawtext=fontcolor=0xFFFFFF:text='Hello\, World'"].
Proof. split; vm_compute; discriminate. Qed.

Lemma scenario_font_first :
  (cfg <- loaded scenario_document_font_first [] ;;
   build_overlay_flags "default" cfg)
  = Ok ["-vf"; "drawtext=fontcolor=0xFFFFFF:font=main:text='Hello\, World'"].
Proof. reflexivity. Qed.

(** *** Which compilations fail *)

Lemma get_in_values {V : Type} (k : string) (d : Dict.t V) (v : V) :
  Dict.get k d = Some v -> In v (Dict.values d).
Proof.
  induction d as [| [k' v'] d IH]; cbn [Dict.get Dict.values map snd];
    [discriminate |].
  destruct (String.eqb k k'); intro H.
  - left. congruence.
  - right. exact (IH H).
Qed.

Lemma get_forallb {V : Type} (p : V -> bool) (k : string) (d : Dict.t V) (v : V) :
  forallb p (Dict.values d) = true -> Dict.get k d = Some v -> p v = true.
Proof.
  intros Hall Hget. rewrite forallb_forall in Hall.
  apply Hall, (get_in_values k), Hget.
Qed.

Lemma for_each_total {A B : Type} (f : A -> result B) (l : list A) :
  (forall x, In x l -> exists y, f x = Ok y) ->
  exists ys, for_each f l = Ok ys.
Proof.
  induction l as [| x l IH]; intro H; [now exists [] |].
  destruct (H x (or_introl eq_refl)) as [y Hy].
  destruct IH as [ys Hys]; [intros z Hz; apply H; now right |].
  exists (y :: ys). cbn [for_each]. rewrite Hy, Hys. reflexivity.
Qed.

Lemma substitute_total (ud : list (string * json)) (v : string) :
  forallb is_str (Dict.values ud) = true -> exists s, substitute ud v = Ok s.
Proof.
  revert v. induction ud as [| [uk uv] ud IH]; intros v H; [now exists v |].
  cbn [Dict.values map snd forallb] in H. apply andb_true_iff in H as [Hv H].
  cbn [substitute]. destruct uv; try discriminate Hv.
  destruct (Str.contains (placeholder uk) v); apply IH, H.
Qed.

(** Fonts that are mappings and user data that are texts: every
    parameter and every item compiles. *)
Section Total.

Variable fd : Dict.t json.
Variable ud : list (string * json).
Hypothesis fonts_are_mappings : forallb is_dict (Dict.values fd) = true.
Hypothesis userdata_are_texts : forallb is_str (Dict.values ud) = true.

Lemma font_clauses_total (v : string) :
  exists fc, font_clauses (JDict fd) v = Ok fc.
Proof.
  rewrite font_clauses_dict.
  destruct (Dict.get v fd) as [font |] eqn:E; [| now exists []].
  pose proof (get_forallb _ _ _ _ fonts_are_mappings E) as Hd.
  destruct font; try discriminate Hd. eauto.
Qed.

Lemma param_clauses_total (k : string) (v : json) :
  exists cl, param_clauses (JDict fd) (JDict ud) k v = Ok cl.
Proof.
  unfold param_clauses.
  destruct (substitute_total ud (Repr.py_str v) userdata_are_texts) as [s Hs].
  destruct (font_clauses_total (Repr.py_str v)) as [fc Hfc].
  destruct (String.eqb k "font"); [rewrite Hfc |];
    cbn [bind items_of]; rewrite Hs; cbn [bind]; eauto.
Qed.

Lemma item_drawtext_total (item : json) :
  is_dict item = true ->
  exists c, item_drawtext (JDict fd) (JDict ud) item = Ok c.
Proof.
  intros Hitem. destruct item; try discriminate Hitem.
  unfold item_drawtext. cbn [items_of bind].
  destruct (for_each_total
              (fun p => param_clauses (JDict fd) (JDict ud) (fst p) (snd p)) d)
    as [filters Hf].
  - intros p _. apply param_clauses_total.
  - rewrite Hf. cbn [bind]. eauto.
Qed.

End Total.

(** In a well-formed configuration the fonts and the user data that
    the compiler reads are mappings of the right kind. *)
Lemma well_formed_fonts (cfg : Config.t) :
  well_formed cfg = true ->
  exists fd, Config.get cfg "fonts" (JDict []) = JDict fd
             /\ forallb is_dict (Dict.values fd) = true.
Proof.
  unfold well_formed. intro H.
  apply andb_true_iff in H as [H _]. apply andb_true_iff in H as [_ H].
  rewrite get_fonts. destruct (Dict.get "fonts" (Config.data cfg)) as [v |].
  - destruct v; try discriminate H. eauto.
  - now exists [].
Qed.

Lemma well_formed_userdata (cfg : Config.t) :
  well_formed cfg = true ->
  exists ud, Config.get cfg "_userdata" (JDict []) = JDict ud
             /\ forallb is_str (Dict.values ud) = true.
Proof.
  unfold well_formed. intro H. apply andb_true_iff in H as [_ H].
  rewrite get_userdata. destruct (Dict.get "_userdata" (Config.data cfg)) as [v |].
  - destruct v; try discriminate H. eauto.
  - now exists [].
Qed.

(** C7, as amended: on a configuration that follows the data model,
    compiling fails with the unknown-preset error when the preset name
    is not in the presets, fails with the missing-items error when the
    preset is there without an ["items"] entry, and in every other case
    returns [-vf] and a filter chain. *)
Theorem overlay_fails_in_two_cases (cfg : Config.t) (name : string) :
  well_formed cfg = true ->
  match Dict.get name (presets_of cfg) with
  | None => build_overlay_flags name cfg = Raise (unknown_preset name)
  | Some preset =>
      match preset_items preset with
      | None => build_overlay_flags name cfg = Raise (missing_items name)
      | Some _ => exists chain, build_overlay_flags name cfg = Ok ["-vf"; chain]
      end
  end.
Proof.
  intro Hwf.
  destruct (well_formed_fonts cfg Hwf) as (fd & Hfonts & Hfd).
  destruct (well_formed_userdata cfg Hwf) as (ud & Huser & Hud).
  unfold well_formed in Hwf.
  apply andb_true_iff in Hwf as [Hwf _]. apply andb_true_iff in Hwf as [Hps _].
  unfold presets_of.
  destruct (Dict.get "presets" (Config.data cfg)) as [v |] eqn:Ev.
  - cbn [entry_ok] in Hps. destruct v as [| | | | | | ps]; try discriminate Hps.
    cbn [mapping_of] in Hps.
    destruct (Dict.get name ps) as [preset |] eqn:En.
    + pose proof (get_forallb _ _ _ _ Hps En) as Hp.
      destruct preset as [| | | | | | p]; try discriminate Hp.
      cbn [preset_ok preset_items] in *.
      destruct (Dict.get "items" p) as [its |] eqn:Ei.
      * rewrite (build_overlay_flags_items cfg name ps p its Ev En Ei).
        destruct its as [| | | | | l |]; try discriminate Hp.
        cbn [iterate bind]. rewrite Hfonts, Huser.
        destruct (for_each_total (item_drawtext (JDict fd) (JDict ud)) l)
          as [drawtexts Hd].
        -- intros item Hin. apply item_drawtext_total; try assumption.
           rewrite forallb_forall in Hp. apply Hp, Hin.
        -- rewrite Hd. cbn [bind]. eauto.
      * unfold build_overlay_flags, Config.__getitem__.
        rewrite get_presets, Ev. cbn [keys_of bind getitem].
        rewrite str_in_keys. unfold Dict.mem. rewrite Ev, En.
        cbn [negb bind keys_of getitem]. rewrite En. cbn [bind keys_of].
        rewrite str_in_keys. unfold Dict.mem. rewrite Ei. reflexivity.
    + unfold build_overlay_flags. rewrite get_presets, Ev.
      cbn [keys_of bind]. rewrite str_in_keys. unfold Dict.mem.
      rewrite En. reflexivity.
  - unfold build_overlay_flags. rewrite get_presets, Ev. reflexivity.
Qed.

Lemma overlay_fails_in_two_cases_witness :
  let cfg := Config.mk "config.json"
               [("presets",
                 JDict [("default",
                         JDict [("items",
                                 JList [JDict [("font", JStr "main");
                                               ("text", JStr "${title}: x")];
                                        JDict []])]);
                        ("empty", JDict [])]);
                ("fonts", JDict [("main", JDict [("fontsize", JInt 24)])]);
                ("_userdata", JDict [("title", JStr "My Clip")])] in
  well_formed cfg = true
  /\ build_overlay_flags "other" cfg = Raise (unknown_preset "other")
  /\ build_overlay_flags "empty" cfg = Raise (missing_items "empty")
  /\ exists chain, build_overlay_flags "default" cfg = Ok ["-vf"; chain].
Proof.
  cbv zeta. split; [reflexivity |]. repeat split;
    match goal with
    | |- context [build_overlay_flags ?n ?c] =>
        apply (overlay_fails_in_two_cases c n); reflexivity
    end.
Defined.

(** C7, as stated, fails: a configuration that loads can have a preset
    with an items list that does not compile, and the error is neither
    of the two.  An item that is no mapping has no [items()], and a font
    reference to a font that is no mapping finds none either: both
    raise AttributeError.  A preset whose ["items"] is [null] has the
    key but no list, and the loop over it raises TypeError, not the
    missing-items error. *)
Lemma overlay_fails_outside_two_cases :
  let doc :=
    [("presets",
      JDict [("default", JDict [("items", JList [JInt 5])]);
             ("styled", JDict [("items", JList [JDict [("font", JStr "main")]])]);
             ("void", JDict [("items", JNull)])]);
     ("fonts", JDict [("main", JStr "Arial")])] in
  exists cfg,
    Config.init "config.json" (Some doc) = Ok cfg
    /\ Dict.get "default" (presets_of cfg)
       = Some (JDict [("items", JList [JInt 5])])
    /\ build_overlay_flags "default" cfg = Raise AttributeError
    /\ Dict.get "styled" (presets_of cfg)
       = Some (JDict [("items", JList [JDict [("font", JStr "main")]])])
    /\ build_overlay_flags "styled" cfg = Raise AttributeError
    /\ Dict.get "void" (presets_of cfg) = Some (JDict [("items", JNull)])
    /\ build_overlay_flags "void" cfg = Raise TypeError.
Proof.
  cbv zeta. eexists. split; [reflexivity |].
  split; [reflexivity |]. split; [reflexivity |].
  split; [reflexivity |]. split; [reflexivity |].
  split; reflexivity.
Qed.

End Overlay.

(** ** Dotted lookup *)

Section Lookup.

Lemma get_loop_append (root item default : json) (pre post : list string) :
  descend root pre = Some item ->
  Config.get_loop root (pre ++ post) default = Config.get_loop item post default.
Proof.
  revert root. induction pre as [| k pre IH]; intros root H.
  - cbn [descend] in H. injection H as ->. reflexivity.
  - cbn [descend] in H. destruct root as [| | | | | | d]; try discriminate H.
    destruct (Dict.get k d) as [v |] eqn:E; [| discriminate H].
    cbn [app Config.get_loop]. rewrite E. apply IH, H.
Qed.

(** Every segment present: the value found is returned. *)
Lemma get_loop_found (root v default : json) (ks : list string) :
  descend root ks = Some v -> Config.get_loop root ks default = v.
Proof.
  intro H. rewrite <- (app_nil_r ks).
  rewrite (get_loop_append root v default ks [] H). reflexivity.
Qed.

(** A value that is no mapping, with segments left: the default. *)
Lemma get_loop_not_mapping
    (root item default : json) (pre : list string) (k : string) (post : list string) :
  descend root pre = Some item -> is_dict item = false ->
  Config.get_loop root (pre ++ k :: post) default = default.
Proof.
  intros H Hd. rewrite (get_loop_append _ _ _ _ _ H).
  destruct item; try reflexivity. discriminate Hd.
Qed.

(** From the default on, the loop stays at the default as long as the
    segments left are no keys of it. *)
Lemma get_loop_default (default : json) (ks : list string) :
  misses default ks = true -> Config.get_loop default ks default = default.
Proof.
  destruct default as [| | | | | | d]; try (destruct ks; reflexivity).
  induction ks as [| k ks IH]; intro H; [reflexivity |].
  cbn [misses forallb] in H. apply andb_true_iff in H as [Hk H].
  unfold Dict.mem in Hk. cbn [Config.get_loop].
  destruct (Dict.get k d); [discriminate Hk | exact (IH H)].
Qed.

(** A segment absent from the mapping reached: the default, when the
    default is no mapping with one of the segments left as a key. *)
Lemma get_loop_absent
    (root default : json) (d : Dict.t json)
    (pre : list string) (k : string) (post : list string) :
  descend root pre = Some (JDict d) -> Dict.get k d = None ->
  misses default post = true ->
  Config.get_loop root (pre ++ k :: post) default = default.
Proof.
  intros H Hk Hm. rewrite (get_loop_append _ _ _ _ _ H).
  cbn [Config.get_loop]. rewrite Hk. apply get_loop_default, Hm.
Qed.

(** The defaults the program passes: a text, or the empty mapping. *)
Lemma misses_program_defaults (ks : list string) (s : string) :
  misses (JStr s) ks = true /\ misses (JDict []) ks = true /\ misses JNull ks = true.
Proof.
  repeat split. cbn [misses]. induction ks; [reflexivity | assumption].
Qed.

(** C4, where the code departs from it: with [{"path": {}}], the key
    [path.tools.ffmpeg] and the default [{"ffmpeg": "ffmpeg"}], the
    segment [tools] is absent, the loop goes on inside the default and
    returns the text found there, not the default. *)
Theorem get_descends_into_default :
  let cfg := Config.mk "config.json" [("path", JDict [])] in
  let default := JDict [("ffmpeg", JStr "ffmpeg")] in
  Config.get cfg "path.tools.ffmpeg" default = JStr "ffmpeg"
  /\ Config.get cfg "path.tools.ffmpeg" default <> default.
Proof. cbv zeta. split; [reflexivity | vm_compute; discriminate]. Qed.

End Lookup.

(** ** Metadata *)

Section Metadata.

(** Every way through a parser: take its matches apart one by one. *)
Ltac each_match :=
  repeat match goal with
         | |- context [match ?x with _ => _ end] => destruct x
         end.

Lemma py_float_raises (s : string) (e : exn) :
  Parse.py_float s = Raise e -> e = ValueError.
Proof. unfold Parse.py_float. each_match; intro H; congruence. Qed.

Lemma py_int_raises (s : string) (e : exn) :
  Parse.py_int s = Raise e -> e = ValueError.
Proof. unfold Parse.py_int. each_match; intro H; congruence. Qed.

(** Deriving the frame rate raises no error of the program's own. *)
Lemma display_fps_raises (fps : string) (e : exn) :
  display_fps fps = Raise e -> e = ValueError \/ e = ZeroDivisionError.
Proof.
  unfold display_fps. destruct (Str.contains "/" fps).
  - destruct (Str.split "/" fps) as [| n [| d [| ? ?]]];
      try (intro H; left; congruence).
    destruct (Parse.py_float n) as [x |] eqn:En;
      [| intro H; left; injection H as <-; exact (py_float_raises _ _ En)].
    destruct (Parse.py_float d) as [y |] eqn:Ed;
      [| intro H; left; injection H as <-; exact (py_float_raises _ _ Ed)].
    cbn [bind]. unfold Float.truediv.
    destruct (Float.is_zero y); cbn [bind]; intro H; [right | ]; congruence.
  - destruct (Parse.py_int fps) as [n |] eqn:En; cbn [bind]; intro H;
      [discriminate H |].
    left. injection H as <-. exact (py_int_raises _ _ En).
Qed.

(** C8: deriving the user data from the metadata fails with the
    variable-frame-rate error if and only if the text of
    [avg_frame_rate] differs from the text of [r_frame_rate]; when the
    two agree it fails with no error of the program's own at all. *)
Theorem variable_frame_rate_rejected
    (output_filename : string) (video_stream : VideoStream.t) (now : string) :
  (build_userdata_from_metadata output_filename video_stream now
   = Raise (BitcException vfr_message)
   <-> VideoStream.avg_frame_rate video_stream
       <> VideoStream.r_frame_rate video_stream)
  /\ ((exists msg, build_userdata_from_metadata output_filename video_stream now
                   = Raise (BitcException msg))
      <-> VideoStream.avg_frame_rate video_stream
          <> VideoStream.r_frame_rate video_stream).
Proof.
  unfold build_userdata_from_metadata.
  destruct (String.eqb_spec (VideoStream.avg_frame_rate video_stream)
              (VideoStream.r_frame_rate video_stream)) as [E | N]; cbn [negb].
  - destruct (display_fps (VideoStream.avg_frame_rate video_stream))
      as [fps | e] eqn:Ef; cbn [bind].
    + split; split; intro H; try contradiction;
        [discriminate H | destruct H as [msg H]; discriminate H].
    + destruct (display_fps_raises _ _ Ef) as [-> | ->];
        split; split; intro H; try contradiction;
        [discriminate H | destruct H as [msg H]; discriminate H
        | discriminate H | destruct H as [msg H]; discriminate H].
  - split; split; intro H; try assumption; eauto.
Qed.

(** The scenario of the specification. *)
Lemma variable_frame_rate_example (output_filename now : string) (w h i : Z) :
  build_userdata_from_metadata output_filename
    (VideoStream.mk i w h "30/1" "29.97" "h264" "yuv420p" None) now
  = Raise (BitcException vfr_message).
Proof. reflexivity. Qed.

(** *** The frame rate shown *)

(** The float that the literal [23.976] denotes, and the float [25.0]. *)
Lemma float_literals :
  Parse.py_float "23.976" = Ok (Float.of_decimal false 23976 (-3))
  /\ Parse.py_float "25.0" = Ok (Float.of_Z 25).
Proof. split; reflexivity. Qed.

(** Rounding a quotient of integers agrees with dividing the floats:
    for the rate itself, and for the three decimals read back. *)
Lemma nearest_is_division :
  Float.nearest false 24000 1001
  = SFdiv Float.prec Float.emax (Float.of_Z 24000) (Float.of_Z 1001)
  /\ Float.of_decimal false 23976 (-3)
     = SFdiv Float.prec Float.emax (Float.of_Z 23976) (Float.of_Z 1000).
Proof. split; reflexivity. Qed.

(** C3, as amended: from the rate text [24000/1001] the value shown
    is the quotient rounded to three decimals, the float [23.976]; from
    [25/1] it is the float [25.0], shown as [25.0], since every rate
    text with a [/] is divided and rounded; the integer [25] is what
    the rate text [25], without a [/], gives. *)
Theorem display_fps_values :
  display_fps "24000/1001" = Ok (NFloat (Float.of_decimal false 23976 (-3)))
  /\ number_str (NFloat (Float.of_decimal false 23976 (-3))) = "23.976"
  /\ display_fps "25/1" = Ok (NFloat (Float.of_Z 25))
  /\ number_str (NFloat (Float.of_Z 25)) = "25.0"
  /\ display_fps "25" = Ok (NInt 25)
  /\ number_str (NInt 25) = "25"
  /\ (forall output_filename now i w h codec pix range,
        (ud <- build_userdata_from_metadata output_filename
                 (VideoStream.mk i w h "25/1" "25/1" codec pix range) now ;;
         Ok (Dict.get "info_1" ud))
        = Ok (Some (int_str w ++ "x" ++ int_str h ++ ", 25.0 FPS")))
  /\ (forall output_filename now i w h codec pix range,
        (ud <- build_userdata_from_metadata output_filename
                 (VideoStream.mk i w h "24000/1001" "24000/1001" codec pix range)
                 now ;;
         Ok (Dict.get "info_1" ud))
        = Ok (Some (int_str w ++ "x" ++ int_str h ++ ", 23.976 FPS"))).
Proof. repeat split. Qed.

(** C3, as stated, fails for [25/1]: the value derived is no integer,
    and the text shown is not [25]. *)
Lemma whole_rate_with_slash_is_float :
  display_fps "25/1" <> Ok (NInt 25)
  /\ (fps <- display_fps "25/1" ;; Ok (number_str fps)) <> Ok "25".
Proof. split; vm_compute; discriminate. Qed.

End Metadata.

(** ** Hydrating the user data *)

Section Hydration.

Lemma get_set_same {V : Type} (k : string) (v : V) (d : Dict.t V) :
  Dict.get k (Dict.set k v d) = Some v.
Proof.
  induction d as [| [k' v'] d IH]; cbn [Dict.set Dict.get].
  - now rewrite String.eqb_refl.
  - destruct (String.eqb k k') eqn:E; cbn [Dict.get]; rewrite E;
      [reflexivity | exact IH].
Qed.

Lemma get_set_other {V : Type} (k k' : string) (v : V) (d : Dict.t V) :
  String.eqb k k' = false -> Dict.get k (Dict.set k' v d) = Dict.get k d.
Proof.
  intro N. induction d as [| [k0 v0] d IH]; cbn [Dict.set Dict.get].
  - now rewrite N.
  - destruct (String.eqb k' k0) eqn:E; cbn [Dict.get].
    + apply String.eqb_eq in E. subst k0. now rewrite N.
    + rewrite IH. reflexivity.
Qed.

Lemma set_set {V : Type} (k : string) (v w : V) (d : Dict.t V) :
  Dict.set k w (Dict.set k v d) = Dict.set k w d.
Proof.
  induction d as [| [k' v'] d IH]; cbn [Dict.set].
  - now rewrite String.eqb_refl.
  - destruct (String.eqb k k') eqn:E; cbn [Dict.set]; rewrite E;
      [reflexivity | now rewrite IH].
Qed.

Lemma set_same {V : Type} (k : string) (v : V) (d : Dict.t V) :
  Dict.get k d = Some v -> Dict.set k v d = d.
Proof.
  induction d as [| [k' v'] d IH]; cbn [Dict.set Dict.get]; [discriminate |].
  destruct (String.eqb k k') eqn:E; intro H.
  - injection H as ->. reflexivity.
  - now rewrite (IH H).
Qed.

Lemma update_append {V : Type} (d o1 o2 : Dict.t V) :
  Dict.update d (o1 ++ o2)%list = Dict.update (Dict.update d o1) o2.
Proof. apply fold_left_app. Qed.

Lemma get_update_other {V : Type} (k : string) (d o : Dict.t V) :
  str_in k (Dict.keys o) = false -> Dict.get k (Dict.update d o) = Dict.get k d.
Proof.
  revert d. induction o as [| [k' v'] o IH]; intros d H; [reflexivity |].
  cbn [Dict.keys map fst] in H. unfold str_in in H. cbn [existsb] in H.
  apply orb_false_iff in H as [N H].
  cbn [Dict.update fold_left fst snd].
  change (fold_left _ o ?x) with (Dict.update x o).
  rewrite (IH _ H). apply get_set_other, N.
Qed.

(** The last write to a key is the one that stays. *)
Lemma get_update_last {V : Type} (k : string) (v : V) (d o1 o2 : Dict.t V) :
  str_in k (Dict.keys o2) = false ->
  Dict.get k (Dict.update d (o1 ++ (k, v) :: o2)%list) = Some v.
Proof.
  intro H. rewrite update_append.
  cbn [Dict.update fold_left fst snd].
  change (fold_left _ o2 ?x) with (Dict.update x o2).
  rewrite (get_update_other _ _ _ H). apply get_set_same.
Qed.

Lemma as_json_keys (o : Dict.t string) :
  Dict.keys (as_json o) = Dict.keys o.
Proof. unfold Dict.keys, as_json. rewrite map_map. reflexivity. Qed.

Lemma userdata_with (cfg : Config.t) (ud : Dict.t json) :
  Config.userdata (with_userdata cfg ud) = Some ud.
Proof.
  unfold Config.userdata, with_userdata. cbn [Config.data].
  rewrite get_set_same. reflexivity.
Qed.

Lemma with_userdata_twice (cfg : Config.t) (a b : Dict.t json) :
  with_userdata (with_userdata cfg a) b = with_userdata cfg b.
Proof.
  unfold with_userdata. cbn [Config.data Config.filepath].
  rewrite set_set. reflexivity.
Qed.

Lemma userdata_lookup (cfg : Config.t) (ud : Dict.t json) :
  Config.userdata cfg = Some ud ->
  Dict.get "_userdata" (Config.data cfg) = Some (JDict ud).
Proof.
  unfold Config.userdata.
  destruct (Dict.get "_userdata" (Config.data cfg)) as [[| | | | | |] |];
    congruence.
Qed.

Lemma with_userdata_same (cfg : Config.t) (ud : Dict.t json) :
  Config.userdata cfg = Some ud -> with_userdata cfg ud = cfg.
Proof.
  intro H. unfold with_userdata.
  rewrite (set_same _ _ _ (userdata_lookup cfg ud H)). now destruct cfg.
Qed.

Lemma set_userdata_ok (cfg : Config.t) (ud : Dict.t json) (k v : string) :
  Config.userdata cfg = Some ud ->
  Config.set_userdata cfg k v
  = (with_userdata cfg (Dict.set k (JStr v) ud), Ok tt).
Proof.
  intro H. unfold Config.set_userdata.
  rewrite (userdata_lookup cfg ud H). reflexivity.
Qed.

Lemma split_entry (kv : string * string) :
  no_equals kv = true -> Str.split "=" (entry kv) = [fst kv; snd kv].
Proof.
  destruct kv as [k v]. unfold no_equals, entry. cbn [fst snd]. intro H.
  apply andb_true_iff in H as [Hk Hv].
  apply negb_true_iff in Hk. apply negb_true_iff in Hv.
  cbn [append]. rewrite (split_char_append "=" k v Hk).
  rewrite (split_char_absent "=" v Hv). reflexivity.
Qed.

(** Well-formed entries are written one after another. *)
Lemma hydrate_list_entries
    (cfg : Config.t) (ud : Dict.t json)
    (good : list (string * string)) (rest : list string) :
  Config.userdata cfg = Some ud ->
  forallb no_equals good = true ->
  Config.hydrate_list cfg (map entry good ++ rest)%list
  = Config.hydrate_list
      (with_userdata cfg (Dict.update ud (as_json good))) rest.
Proof.
  revert cfg ud. induction good as [| kv good IH]; intros cfg ud Hud Hgood.
  - cbn [map app as_json Dict.update fold_left].
    rewrite (with_userdata_same cfg ud Hud). reflexivity.
  - cbn [forallb] in Hgood. apply andb_true_iff in Hgood as [Hkv Hgood].
    cbn [map app Config.hydrate_list]. rewrite (split_entry kv Hkv).
    rewrite (set_userdata_ok cfg ud _ _ Hud).
    rewrite (IH _ _ (userdata_with cfg _) Hgood), with_userdata_twice.
    reflexivity.
Qed.

Lemma hydrate_list_malformed (cfg : Config.t) (bad : string) (rest : list string) :
  List.length (Str.split "=" bad) <> 2 ->
  Config.hydrate_list cfg (bad :: rest) = (cfg, Raise (malformed_entry bad)).
Proof.
  intro H. cbn [Config.hydrate_list].
  destruct (Str.split "=" bad) as [| a [| b [| c l]]]; try reflexivity.
  now contradiction H.
Qed.

(** C9: when an entry that does not split on [=] into exactly two
    parts makes hydration from a list fail, the configuration is left
    with every well-formed entry before it written into the user data:
    it is the configuration that hydrating those entries alone gives,
    and each of their keys holds the value of its last entry. *)
Theorem hydrate_list_not_atomic
    (cfg : Config.t) (ud : Dict.t json)
    (good : list (string * string)) (bad : string) (rest : list string) :
  Config.userdata cfg = Some ud ->
  forallb no_equals good = true ->
  List.length (Str.split "=" bad) <> 2 ->
  Config.hydrate_userdata cfg
    (Config.DataList (map entry good ++ bad :: rest)%list)
  = (with_userdata cfg (Dict.update ud (as_json good)),
     Raise (malformed_entry bad))
  /\ Config.hydrate_userdata cfg (Config.DataList (map entry good))
     = (with_userdata cfg (Dict.update ud (as_json good)), Ok tt)
  /\ (forall before k v after,
        good = (before ++ (k, v) :: after)%list ->
        str_in k (Dict.keys after) = false ->
        Dict.get k (Dict.update ud (as_json good)) = Some (JStr v)).
Proof.
  intros Hud Hgood Hbad. cbn [Config.hydrate_userdata]. repeat split.
  - rewrite (hydrate_list_entries cfg ud good _ Hud Hgood).
    apply hydrate_list_malformed, Hbad.
  - rewrite <- (app_nil_r (map entry good)).
    rewrite (hydrate_list_entries cfg ud good _ Hud Hgood). reflexivity.
  - intros before k v after -> Hk. unfold as_json. rewrite map_app.
    cbn [map fst snd]. apply get_update_last.
    fold (as_json after). rewrite as_json_keys. exact Hk.
Qed.

Lemma hydrate_list_not_atomic_witness :
  let cfg := Config.mk "config.json"
               [("presets", JDict []); ("_userdata", JDict [("title", JStr "old")])] in
  Config.userdata cfg = Some [("title", JStr "old")]
  /\ Config.hydrate_userdata cfg
       (Config.DataList ["title=My Clip"; "reel=7"; "a=b=c"; "shot=12"])
     = (Config.mk "config.json"
          [("presets", JDict []);
           ("_userdata", JDict [("title", JStr "My Clip"); ("reel", JStr "7")])],
        Raise (BitcException "Badly formatted data entry 'a=b=c'")).
Proof.
  cbv zeta. split; [reflexivity |].
  apply (hydrate_list_not_atomic
           (Config.mk "config.json"
              [("presets", JDict []); ("_userdata", JDict [("title", JStr "old")])])
           [("title", JStr "old")]
           [("title", "My Clip"); ("reel", "7")] "a=b=c" ["shot=12"]);
    [reflexivity | reflexivity | vm_compute; lia].
Defined.



(** An entry splits into exactly two parts when it has exactly one [=]. *)
Lemma two_parts_iff_one_equals (e : string) :
  List.length (Str.split "=" e) = 2 <-> count "=" e = 1.
Proof. rewrite split_char_length. lia. Qed.

(** Every entry with exactly one [=] has that shape. *)
Lemma one_equals_is_entry (e : string) :
  count "=" e = 1 -> exists k v, e = entry (k, v) /\ no_equals (k, v) = true.
Proof.
  intro H. destruct (count_one_shape "=" e H) as (k & v & -> & Hk & Hv).
  exists k, v. unfold no_equals. cbn [fst snd]. rewrite Hk, Hv. now split.
Qed.

Lemma hydrate_empty_key_and_value :
  let cfg := Config.mk "config.json" [("_userdata", JDict [])] in
  fst (Config.hydrate_userdata cfg (Config.DataList ["=VALUE"; "KEY="]))
  = Config.mk "config.json"
      [("_userdata", JDict [("", JStr "VALUE"); ("KEY", JStr "")])].
Proof. reflexivity. Qed.

End Hydration.

(** ** The configuration as the program builds it *)

Section Invariants.

(** A fresh configuration has an empty user-data namespace. *)
Lemma init_userdata_empty (path : string) (doc : Dict.t json) (cfg : Config.t) :
  Config.init path (Some doc) = Ok cfg -> Config.userdata cfg = Some [].
Proof.
  unfold Config.init. destruct (Config.init_fonts doc) as [d | e]; cbn [bind];
    [| discriminate].
  intro H. injection H as <-. unfold Config.userdata. cbn [Config.data].
  rewrite get_set_same. reflexivity.
Qed.

Lemma set_forallb {V : Type} (p : V -> bool) (k : string) (v : V) (d : Dict.t V) :
  p v = true -> forallb p (Dict.values d) = true ->
  forallb p (Dict.values (Dict.set k v d)) = true.
Proof.
  intros Hv. induction d as [| [k' v'] d IH]; cbn [Dict.set Dict.values map snd forallb].
  - intros _. now rewrite Hv.
  - intro H. apply andb_true_iff in H as [H' H].
    destruct (String.eqb k k'); cbn [Dict.values map snd forallb].
    + now rewrite Hv.
    + rewrite H'. exact (IH H).
Qed.

Lemma update_forallb {V : Type} (p : V -> bool) (d o : Dict.t V) :
  forallb p (Dict.values o) = true -> forallb p (Dict.values d) = true ->
  forallb p (Dict.values (Dict.update d o)) = true.
Proof.
  revert d. induction o as [| [k v] o IH]; intros d Ho Hd; [exact Hd |].
  cbn [Dict.values map snd forallb] in Ho. apply andb_true_iff in Ho as [Hv Ho].
  cbn [Dict.update fold_left fst snd].
  change (fold_left _ o ?x) with (Dict.update x o).
  apply IH; [exact Ho | apply set_forallb; assumption].
Qed.

Lemma as_json_texts (o : Dict.t string) :
  forallb is_str (Dict.values (as_json o)) = true.
Proof. induction o as [| [k v] o IH]; [reflexivity | exact IH]. Qed.

Lemma hydrate_list_keeps_texts (l : list string) :
  forall (cfg : Config.t) (ud : Dict.t json),
    Config.userdata cfg = Some ud ->
    forallb is_str (Dict.values ud) = true ->
    exists ud',
      Config.userdata (fst (Config.hydrate_list cfg l)) = Some ud'
      /\ forallb is_str (Dict.values ud') = true.
Proof.
  induction l as [| item l IH]; intros cfg ud Hud Hs; [now exists ud |].
  cbn [Config.hydrate_list].
  destruct (Str.split "=" item) as [| k [| v [| ? ?]]]; try (now exists ud).
  rewrite (set_userdata_ok cfg ud k v Hud).
  apply (IH _ (Dict.set k (JStr v) ud)); [apply userdata_with |].
  now apply set_forallb.
Qed.

(** Hydration keeps the user data a mapping of texts, whether it
    returns or raises; with [init_userdata_empty] this is the third
    part of [well_formed] for every configuration the program builds. *)
Lemma hydrate_keeps_texts (cfg : Config.t) (ud : Dict.t json) (src : Config.source) :
  Config.userdata cfg = Some ud ->
  forallb is_str (Dict.values ud) = true ->
  exists ud',
    Config.userdata (fst (Config.hydrate_userdata cfg src)) = Some ud'
    /\ forallb is_str (Dict.values ud') = true.
Proof.
  intros Hud Hs. destruct src as [| l | d]; cbn [Config.hydrate_userdata].
  - now exists ud.
  - now apply (hydrate_list_keeps_texts l cfg ud).
  - rewrite (userdata_lookup cfg ud Hud). cbn [fst].
    exists (Dict.update ud (as_json d)). split.
    + apply (userdata_with cfg).
    + apply update_forallb; [apply as_json_texts | exact Hs].
Qed.

(** Loading replaces a font's color name by the color. *)
Lemma init_fonts_dereferences :
  Config.init_fonts
    [("colors", JDict [("white", JStr "0xFFFFFF")]);
     ("fonts", JDict [("main", JDict [("fontcolor", JStr "white"); ("fontsize", JInt 24)]);
                      ("alt", JDict [("fontcolor", JStr "0x000000")])])]
  = Ok [("colors", JDict [("white", JStr "0xFFFFFF")]);
        ("fonts", JDict [("main", JDict [("fontcolor", JStr "0xFFFFFF");
                                        ("fontsize", JInt 24)]);
                         ("alt", JDict [("fontcolor", JStr "0x000000")])])].
Proof. reflexivity. Qed.

(** Outside the data model the compiler raises errors of Python's own:
    an item that is no mapping has no [items()]. *)
Lemma item_outside_data_model :
  build_overlay_flags "default"
    (Config.mk "config.json"
       [("presets", JDict [("default", JDict [("items", JList [JInt 5])])]);
        ("_userdata", JDict [])])
  = Raise AttributeError.
Proof. reflexivity. Qed.

End Invariants.

(** ** Lookup and loading *)

Section Loading.

(** X1: with a default that is no mapping, or a mapping that has none
    of the key's segments as a key (so for the defaults the program
    passes: a text, nothing, the empty mapping), [get] returns the value
    at the dotted path when every segment is a key of the mapping
    reached before it, and the default in every other case. *)
Theorem get_is_lookup_or_default (cfg : Config.t) (key : string) (default : json) :
  misses default (Str.split "." key) = true ->
  Config.get cfg key default
  = match descend (JDict (Config.data cfg)) (Str.split "." key) with
    | Some v => v
    | None => default
    end.
Proof.
  unfold Config.get. generalize (JDict (Config.data cfg)) as root.
  induction (Str.split "." key) as [| k ks IH]; intros root Hm; [reflexivity |].
  assert (Hrest : misses default ks = true).
  { destruct default; try reflexivity.
    cbn [misses forallb] in Hm. now apply andb_true_iff in Hm. }
  cbn [Config.get_loop descend]. destruct root as [| | | | | | d]; try reflexivity.
  destruct (Dict.get k d) as [v |]; [apply IH, Hrest |].
  apply get_loop_default, Hrest.
Qed.

Lemma get_is_lookup_or_default_witness :
  let cfg := Config.mk "config.json"
               [("path", JDict [("ffmpeg", JStr "/opt/ffmpeg")]); ("colors", JInt 3)] in
  misses (JStr "ffprobe") (Str.split "." "path.ffprobe") = true
  /\ Config.get cfg "path.ffmpeg" (JStr "ffmpeg") = JStr "/opt/ffmpeg"
  /\ Config.get cfg "path.ffprobe" (JStr "ffprobe") = JStr "ffprobe"
  /\ Config.get cfg "colors.white" (JDict []) = JDict [].
Proof.
  cbv zeta. split; [reflexivity | split; [| split]];
    match goal with
    | |- Config.get ?c ?k ?d = _ => apply (get_is_lookup_or_default c k d); reflexivity
    end.
Defined.

Lemma init_fonts_keeps_others (doc d : Dict.t json) (k : string) :
  Config.init_fonts doc = Ok d -> String.eqb k "fonts" = false ->
  Dict.get k d = Dict.get k doc.
Proof.
  unfold Config.init_fonts. intros H N.
  destruct (Dict.get "fonts" doc) as [fonts |]; [| congruence].
  destruct (Dict.get "colors" doc) as [colors |]; [| congruence].
  destruct (items_of fonts) as [fd |]; cbn [bind] in H; [| discriminate].
  destruct (for_each _ fd) as [fd' |]; cbn [bind] in H; [| discriminate].
  injection H as <-. apply get_set_other, N.
Qed.

(** X2: a configuration that loads has the path it was loaded from and
    an empty user-data namespace, whatever the document held under
    ["_userdata"], and keeps every other entry of the document, the
    fonts apart, as it is. *)
Theorem init_keeps_document
    (path : string) (doc : Dict.t json) (cfg : Config.t) :
  Config.init path (Some doc) = Ok cfg ->
  Config.filepath cfg = path
  /\ Config.userdata cfg = Some []
  /\ (forall k,
        String.eqb k "_userdata" = false -> String.eqb k "fonts" = false ->
        Dict.get k (Config.data cfg) = Dict.get k doc).
Proof.
  intro H. split; [| split].
  - unfold Config.init in H. destruct (Config.init_fonts doc); cbn [bind] in H;
      [| discriminate]. now injection H as <-.
  - exact (init_userdata_empty path doc cfg H).
  - intros k Nu Nf. unfold Config.init in H.
    destruct (Config.init_fonts doc) as [d |] eqn:E; cbn [bind] in H; [| discriminate].
    injection H as <-. cbn [Config.data].
    rewrite (get_set_other _ _ _ _ Nu). exact (init_fonts_keeps_others doc d k E Nf).
Qed.

Lemma init_keeps_document_witness :
  let doc := [("_userdata", JDict [("title", JStr "kept?")]);
              ("presets", JDict [("default", JDict [])])] in
  Config.init "config.json" (Some doc)
  = Ok (Config.mk "config.json"
          [("_userdata", JDict []); ("presets", JDict [("default", JDict [])])])
  /\ Config.userdata
       (Config.mk "config.json"
          [("_userdata", JDict []); ("presets", JDict [("default", JDict [])])])
     = Some [].
Proof.
  cbv zeta. split; [reflexivity |].
  apply (init_keeps_document "config.json"
           [("_userdata", JDict [("title", JStr "kept?")]);
            ("presets", JDict [("default", JDict [])])]).
  reflexivity.
Defined.

(** *** Font colors *)

Lemma for_each_map {A B : Type} (f : A -> result B) (g : A -> B) (l : list A) :
  (forall x, In x l -> f x = Ok (g x)) -> for_each f l = Ok (map g l).
Proof.
  induction l as [| x l IH]; intro H; [reflexivity |].
  cbn [for_each map]. rewrite (H x (or_introl eq_refl)). cbn [bind].
  rewrite IH; [reflexivity |]. intros y Hy. apply H. now right.
Qed.

Lemma init_font_resolves (cd : Dict.t json) (font : json) :
  font_ok font = true ->
  Config.init_font (JDict cd) font = Ok (resolved_font cd font).
Proof.
  destruct font as [| | | | | | f]; try discriminate.
  cbn [font_ok Config.init_font resolved_font].
  destruct (Dict.get "fontcolor" f) as [fc |] eqn:E; [| reflexivity].
  cbn [items_of bind]. intro H.
  destruct fc as [| b | n | x | name | l | d]; try discriminate H;
    cbn [resolved_color]; try (now rewrite (set_same _ _ _ E)).
  destruct (Dict.get name cd); [reflexivity | now rewrite (set_same _ _ _ E)].
Qed.

Lemma get_map_values {V W : Type} (g : V -> W) (k : string) (d : Dict.t V) :
  Dict.get k (map (fun kv => (fst kv, g (snd kv))) d) = option_map g (Dict.get k d).
Proof.
  induction d as [| [k' v] d IH]; [reflexivity |].
  cbn [map fst snd Dict.get]. destruct (String.eqb k k'); [reflexivity | exact IH].
Qed.

Lemma keys_map_values {V W : Type} (g : V -> W) (d : Dict.t V) :
  Dict.keys (map (fun kv => (fst kv, g (snd kv))) d) = Dict.keys d.
Proof. unfold Dict.keys. rewrite map_map. reflexivity. Qed.

Lemma keys_set_present {V : Type} (k : string) (v w : V) (d : Dict.t V) :
  Dict.get k d = Some w -> Dict.keys (Dict.set k v d) = Dict.keys d.
Proof.
  induction d as [| [k' v'] d IH]; cbn [Dict.get Dict.set]; [discriminate |].
  destruct (String.eqb k k'); intro H; [reflexivity |].
  unfold Dict.keys in *. cbn [map fst]. now rewrite (IH H).
Qed.

(** X3: when the document has colors and fonts, both mappings, and
    every font is a mapping whose [fontcolor], if any, is no list and no
    mapping, loading keeps the fonts' names and every font's parameter
    names in their order, replaces a [fontcolor] that names a color by
    that color, and leaves every other parameter, and a [fontcolor] that
    names no color, as it is. *)
Theorem init_fonts_resolves_colors
    (doc : Dict.t json) (fd cd : Dict.t json) :
  Dict.get "fonts" doc = Some (JDict fd) ->
  Dict.get "colors" doc = Some (JDict cd) ->
  forallb font_ok (Dict.values fd) = true ->
  exists fd',
    Config.init_fonts doc = Ok (Dict.set "fonts" (JDict fd') doc)
    /\ Dict.keys fd' = Dict.keys fd
    /\ (forall name f,
          Dict.get name fd = Some (JDict f) ->
          exists f',
            Dict.get name fd' = Some (JDict f')
            /\ Dict.keys f' = Dict.keys f
            /\ (forall k,
                  Dict.get k f'
                  = if String.eqb k "fontcolor"
                    then option_map (resolved_color cd) (Dict.get k f)
                    else Dict.get k f)).
Proof.
  intros Hf Hc Hok.
  exists (map (fun kv => (fst kv, resolved_font cd (snd kv))) fd).
  split; [| split].
  - unfold Config.init_fonts. rewrite Hf, Hc. cbn [items_of bind].
    rewrite (for_each_map _ (fun kv => (fst kv, resolved_font cd (snd kv)))).
    + reflexivity.
    + intros [name font] Hin. cbn [fst snd].
      rewrite init_font_resolves; [reflexivity |].
      rewrite forallb_forall in Hok. apply Hok.
      change font with (snd (name, font)). apply in_map, Hin.
  - apply keys_map_values.
  - intros name f Hname. rewrite get_map_values, Hname. cbn [option_map resolved_font].
    destruct (Dict.get "fontcolor" f) as [fc |] eqn:E.
    + eexists. split; [reflexivity | split].
      * exact (keys_set_present _ _ _ _ E).
      * intro k. destruct (String.eqb k "fontcolor") eqn:Ek.
        -- apply String.eqb_eq in Ek. subst k. rewrite E. apply get_set_same.
        -- apply get_set_other, Ek.
    + exists f. split; [reflexivity | split; [reflexivity |]].
      intro k. destruct (String.eqb k "fontcolor") eqn:Ek; [| reflexivity].
      apply String.eqb_eq in Ek. subst k. now rewrite E.
Qed.

Lemma init_fonts_resolves_colors_witness :
  let fd := [("main", JDict [("fontsize", JInt 24); ("fontcolor", JStr "white")]);
             ("alt", JDict [("fontcolor", JStr "0x000000")])] in
  let cd := [("white", JStr "0xFFFFFF")] in
  let doc := [("colors", JDict cd); ("fonts", JDict fd)] in
  forallb font_ok (Dict.values fd) = true
  /\ exists fd',
       Config.init_fonts doc = Ok (Dict.set "fonts" (JDict fd') doc)
       /\ Dict.keys fd' = Dict.keys fd
       /\ (forall name f,
             Dict.get name fd = Some (JDict f) ->
             exists f',
               Dict.get name fd' = Some (JDict f')
               /\ Dict.keys f' = Dict.keys f
               /\ (forall k,
                     Dict.get k f'
                     = if String.eqb k "fontcolor"
                       then option_map (resolved_color cd) (Dict.get k f)
                       else Dict.get k f)).
Proof.
  cbv zeta. split; [reflexivity |].
  apply (init_fonts_resolves_colors
           [("colors", JDict [("white", JStr "0xFFFFFF")]);
            ("fonts",
             JDict [("main", JDict [("fontsize", JInt 24); ("fontcolor", JStr "white")]);
                    ("alt", JDict [("fontcolor", JStr "0x000000")])])]);
    reflexivity.
Defined.

End Loading.

(** ** Hydration passes *)

Section Passes.

Lemma hydrate_dict_ok (cfg : Config.t) (ud : Dict.t json) (d : Dict.t string) :
  Config.userdata cfg = Some ud ->
  Config.hydrate_userdata cfg (Config.DataDict d)
  = (with_userdata cfg (Dict.update ud (as_json d)), Ok tt).
Proof.
  intro H. cbn [Config.hydrate_userdata].
  rewrite (userdata_lookup cfg ud H). reflexivity.
Qed.

(** X4: hydrating from a mapping and then from a list of well-formed
    entries, as [main] does with the metadata and the user's data,
    leaves the namespace updated by the mapping and then by the entries:
    a key of the entries holds the value of its last entry, whatever the
    mapping gave it, and every other key holds what it held after the
    first pass. *)
Theorem later_pass_wins
    (cfg : Config.t) (ud : Dict.t json)
    (meta : Dict.t string) (user : list (string * string)) :
  Config.userdata cfg = Some ud ->
  forallb no_equals user = true ->
  let after_meta := Dict.update ud (as_json meta) in
  let after_user := Dict.update after_meta (as_json user) in
  Config.hydrate_userdata
    (fst (Config.hydrate_userdata cfg (Config.DataDict meta)))
    (Config.DataList (map entry user))
  = (with_userdata cfg after_user, Ok tt)
  /\ (forall k,
        str_in k (Dict.keys user) = false ->
        Dict.get k after_user = Dict.get k after_meta)
  /\ (forall before k v after,
        user = (before ++ (k, v) :: after)%list ->
        str_in k (Dict.keys after) = false ->
        Dict.get k after_user = Some (JStr v)).
Proof.
  intros Hud Huser. cbv zeta. repeat split.
  - rewrite (hydrate_dict_ok cfg ud meta Hud). cbn [fst Config.hydrate_userdata].
    rewrite <- (app_nil_r (map entry user)).
    rewrite (hydrate_list_entries _ _ user [] (userdata_with cfg _) Huser).
    rewrite with_userdata_twice. reflexivity.
  - intros k Hk. apply get_update_other. now rewrite as_json_keys.
  - intros before k v after -> Hk. unfold as_json. rewrite map_app.
    cbn [map fst snd]. apply get_update_last.
    fold (as_json after). now rewrite as_json_keys.
Qed.

Lemma later_pass_wins_witness :
  let cfg := Config.mk "config.json" [("_userdata", JDict [])] in
  let meta := [("heading_title", "out.mov"); ("frame_start", "0")] in
  let user := [("heading_title", "My Clip"); ("reel", "7")] in
  Config.userdata cfg = Some []
  /\ forallb no_equals user = true
  /\ Config.hydrate_userdata
       (fst (Config.hydrate_userdata cfg (Config.DataDict meta)))
       (Config.DataList ["heading_title=My Clip"; "reel=7"])
     = (Config.mk "config.json"
          [("_userdata",
            JDict [("heading_title", JStr "My Clip"); ("frame_start", JStr "0");
                   ("reel", JStr "7")])],
        Ok tt).
Proof.
  cbv zeta. split; [reflexivity | split; [reflexivity |]].
  apply (later_pass_wins
           (Config.mk "config.json" [("_userdata", JDict [])]) []
           [("heading_title", "out.mov"); ("frame_start", "0")]
           [("heading_title", "My Clip"); ("reel", "7")]);
    reflexivity.
Defined.

(** X5: from loading on, through any sequence of hydrations, each
    returning or raising, the user-data namespace is a mapping and all
    its values are texts. *)
Theorem userdata_stays_texts
    (path : string) (file : option (Dict.t json)) (cfg : Config.t)
    (srcs : list Config.source) :
  Config.init path file = Ok cfg ->
  exists ud,
    Config.userdata (hydrations cfg srcs) = Some ud
    /\ forallb is_str (Dict.values ud) = true.
Proof.
  intro H. destruct file as [doc |]; [| discriminate H].
  pose proof (init_userdata_empty path doc cfg H) as Hud.
  assert (Hgen : forall c ud,
             Config.userdata c = Some ud ->
             forallb is_str (Dict.values ud) = true ->
             exists ud',
               Config.userdata (hydrations c srcs) = Some ud'
               /\ forallb is_str (Dict.values ud') = true).
  { clear. induction srcs as [| src srcs IH]; intros c ud Hc Hs; [now exists ud |].
    destruct (hydrate_keeps_texts c ud src Hc Hs) as (ud1 & Hc1 & Hs1).
    exact (IH _ ud1 Hc1 Hs1). }
  exact (Hgen cfg [] Hud eq_refl).
Qed.

Lemma userdata_stays_texts_witness :
  exists ud,
    Config.userdata
      (hydrations
         (Config.mk "config.json" [("presets", JDict []); ("_userdata", JDict [])])
         [Config.DataDict [("fps_rate", "25/1")];
          Config.DataList ["reel=7"; "broken"; "shot=1"];
          Config.NoData])
    = Some ud
    /\ forallb is_str (Dict.values ud) = true.
Proof.
  apply (userdata_stays_texts "config.json" (Some [("presets", JDict [])])).
  reflexivity.
Defined.

Lemma split_two_parts (c : ascii) (e : string) :
  count c e = 1 -> exists k v, Str.split (String c "") e = [k; v].
Proof.
  intro H. destruct (count_one_shape c e H) as (k & v & -> & Hk & Hv).
  exists k, v. rewrite (split_char_append c k v Hk), (split_char_absent c v Hv).
  reflexivity.
Qed.

(** X6: hydration from a list returns if and only if every entry has
    exactly one [=]; otherwise it raises. *)
Theorem hydrate_list_returns_iff
    (cfg : Config.t) (ud : Dict.t json) (l : list string) :
  Config.userdata cfg = Some ud ->
  snd (Config.hydrate_userdata cfg (Config.DataList l)) = Ok tt
  <-> Forall (fun e => count "=" e = 1) l.
Proof.
  cbn [Config.hydrate_userdata]. revert cfg ud.
  induction l as [| e l IH]; intros cfg ud Hud.
  - split; [constructor | reflexivity].
  - cbn [Config.hydrate_list].
    destruct (Nat.eq_dec (count "=" e) 1) as [One | Not].
    + destruct (split_two_parts "=" e One) as (k & v & ->).
      rewrite (set_userdata_ok cfg ud k v Hud).
      rewrite (IH _ _ (userdata_with cfg _)).
      split; [now constructor | now inversion 1].
    + pose proof (split_char_length "=" e) as Hlen.
      destruct (Str.split "=" e) as [| a [| b [| c0 r]]]; cbn [List.length] in Hlen;
        try (split; [discriminate | inversion 1; contradiction]).
      exfalso. apply Not. lia.
Qed.

Lemma hydrate_list_returns_iff_witness :
  let cfg := Config.mk "config.json" [("_userdata", JDict [])] in
  Config.userdata cfg = Some []
  /\ (snd (Config.hydrate_userdata cfg (Config.DataList ["a=1"; "b"; "c=3"])) = Ok tt
      <-> Forall (fun e => count "=" e = 1) ["a=1"; "b"; "c=3"]).
Proof.
  cbv zeta. split; [reflexivity |].
  apply (hydrate_list_returns_iff
           (Config.mk "config.json" [("_userdata", JDict [])]) []).
  reflexivity.
Defined.

End Passes.

(** ** More on the overlay compiler *)

Section OverlayMore.

Lemma for_each_ext {A B : Type} (f g : A -> result B) (l : list A) :
  (forall x, In x l -> f x = g x) -> for_each f l = for_each g l.
Proof.
  induction l as [| x l IH]; intro H; [reflexivity |].
  cbn [for_each]. rewrite (H x (or_introl eq_refl)), IH; [reflexivity |].
  intros y Hy. apply H. now right.
Qed.

Lemma escape_plain (v : string) :
  occurs ":" v = false -> occurs "," v = false -> escape_spec v = v.
Proof.
  induction v as [| a v IH]; [reflexivity |]. cbn [occurs escape_spec].
  intros Hc Hm. apply orb_false_iff in Hc as [Hc1 Hc2].
  apply orb_false_iff in Hm as [Hm1 Hm2].
  rewrite Hc1, Hm1, (IH Hc2 Hm2). reflexivity.
Qed.

(** X7: a parameter other than [font] whose value, as a text, has no
    [$], no [:] and no [,] compiles to the single clause [name=value],
    in single quotes for [text] and [timecode], with the value exactly
    as it is, whatever the fonts and the user data. *)
Theorem plain_parameter_verbatim
    (fonts : json) (ud : list (string * json)) (k : string) (v : json) :
  String.eqb k "font" = false ->
  plain_value (Repr.py_str v) = true ->
  param_clauses fonts (JDict ud) k v
  = Ok [if String.eqb k "text" || String.eqb k "timecode"
        then k ++ "='" ++ Repr.py_str v ++ "'"
        else k ++ "=" ++ Repr.py_str v].
Proof.
  intros Hk Hv. unfold plain_value in Hv.
  apply andb_true_iff in Hv as [Hv Hcomma]. apply andb_true_iff in Hv as [Hdollar Hcolon].
  apply negb_true_iff in Hdollar. apply negb_true_iff in Hcolon.
  apply negb_true_iff in Hcomma.
  rewrite (param_clauses_other fonts ud k v (Repr.py_str v) Hk
             (substitute_no_dollar ud _ Hdollar)).
  rewrite (escape_plain _ Hcolon Hcomma). reflexivity.
Qed.

Lemma plain_parameter_verbatim_witness :
  String.eqb "fontsize" "font" = false
  /\ plain_value (Repr.py_str (JInt 24)) = true
  /\ param_clauses JNull (JDict [("title", JInt 3)]) "fontsize" (JInt 24)
     = Ok ["fontsize=24"]
  /\ param_clauses JNull (JDict [("title", JInt 3)]) "timecode" (JStr "01;00;00;00")
     = Ok ["timecode='01;00;00;00'"].
Proof.
  split; [reflexivity | split; [reflexivity | split]].
  - apply (plain_parameter_verbatim JNull [("title", JInt 3)] "fontsize" (JInt 24));
      reflexivity.
  - apply (plain_parameter_verbatim JNull [("title", JInt 3)] "timecode"
             (JStr "01;00;00;00")); reflexivity.
Defined.

Lemma param_clauses_dollar_free
    (fonts : json) (ud1 ud2 : list (string * json)) (k : string) (v : json) :
  occurs "$" (Repr.py_str v) = false ->
  param_clauses fonts (JDict ud1) k v = param_clauses fonts (JDict ud2) k v.
Proof.
  intro H. unfold param_clauses.
  destruct (if String.eqb k "font" then _ else _); [| reflexivity].
  cbn [bind items_of]. now rewrite !(substitute_no_dollar _ _ H).
Qed.

Lemma item_drawtext_dollar_free
    (fonts : json) (ud1 ud2 : list (string * json)) (item : json) :
  dollar_free_item item = true ->
  item_drawtext fonts (JDict ud1) item = item_drawtext fonts (JDict ud2) item.
Proof.
  intro H. unfold item_drawtext. destruct item as [| | | | | | d]; try reflexivity.
  cbn [items_of bind dollar_free_item] in *.
  rewrite (for_each_ext _ (fun p => param_clauses fonts (JDict ud2) (fst p) (snd p))).
  - reflexivity.
  - intros p Hp. apply param_clauses_dollar_free.
    rewrite forallb_forall in H. apply negb_true_iff, H, Hp.
Qed.

Lemma get_with_userdata (cfg : Config.t) (ud : Dict.t json) (k : string) :
  String.eqb k "_userdata" = false ->
  Dict.get k (Config.data (with_userdata cfg ud)) = Dict.get k (Config.data cfg).
Proof. intro N. unfold with_userdata. cbn [Config.data]. apply get_set_other, N. Qed.

(** X8: when no value of the preset's items has a [$], the outcome of
    compiling the preset, a chain or an error, is the same whatever the
    user data. *)
Theorem overlay_without_dollar_ignores_userdata
    (cfg : Config.t) (name : string) (ps preset : Dict.t json) (items : list json)
    (ud1 ud2 : Dict.t json) :
  Dict.get "presets" (Config.data cfg) = Some (JDict ps) ->
  Dict.get name ps = Some (JDict preset) ->
  Dict.get "items" preset = Some (JList items) ->
  forallb dollar_free_item items = true ->
  build_overlay_flags name (with_userdata cfg ud1)
  = build_overlay_flags name (with_userdata cfg ud2).
Proof.
  intros Hps Hname Hitems Hfree.
  assert (Hboth : forall ud,
             build_overlay_flags name (with_userdata cfg ud)
             = (drawtexts <- for_each
                               (item_drawtext (Config.get cfg "fonts" (JDict []))
                                  (JDict ud)) items ;;
                Ok ["-vf"; Str.join "," (map (fun c => "drawtext=" ++ c) drawtexts)])).
  { intro ud.
    rewrite (build_overlay_flags_items (with_userdata cfg ud) name ps preset
               (JList items)); try assumption.
    - cbn [iterate bind]. rewrite !get_fonts, get_userdata.
      rewrite (get_with_userdata cfg ud "fonts" eq_refl).
      unfold with_userdata at 1. cbn [Config.data]. rewrite get_set_same.
      reflexivity.
    - now rewrite (get_with_userdata cfg ud "presets" eq_refl). }
  rewrite !Hboth.
  rewrite (for_each_ext _ (item_drawtext (Config.get cfg "fonts" (JDict [])) (JDict ud2)));
    [reflexivity |].
  intros item Hin. apply item_drawtext_dollar_free.
  rewrite forallb_forall in Hfree. apply Hfree, Hin.
Qed.

Lemma overlay_without_dollar_ignores_userdata_witness :
  let cfg := Config.mk "config.json"
               [("presets",
                 JDict [("default",
                         JDict [("items",
                                 JList [JDict [("text", JStr "a, b"); ("x", JInt 10)];
                                        JInt 5])])])] in
  forallb dollar_free_item [JDict [("text", JStr "a, b"); ("x", JInt 10)]; JInt 5] = true
  /\ build_overlay_flags "default" (with_userdata cfg [])
     = build_overlay_flags "default" (with_userdata cfg [("text", JStr "other")]).
Proof.
  cbv zeta. split; [reflexivity |].
  apply (overlay_without_dollar_ignores_userdata
           (Config.mk "config.json"
              [("presets",
                JDict [("default",
                        JDict [("items",
                                JList [JDict [("text", JStr "a, b"); ("x", JInt 10)];
                                       JInt 5])])])])
           "default"
           [("default",
             JDict [("items",
                     JList [JDict [("text", JStr "a, b"); ("x", JInt 10)]; JInt 5])])]
           [("items", JList [JDict [("text", JStr "a, b"); ("x", JInt 10)]; JInt 5])]
           [JDict [("text", JStr "a, b"); ("x", JInt 10)]; JInt 5]);
    reflexivity.
Defined.

Lemma join_cons (sep x y : string) (l : list string) :
  Str.join sep (x :: y :: l) = x ++ sep ++ Str.join sep (y :: l).
Proof. reflexivity. Qed.

Lemma drawtext_repeat (n : nat) :
  map (fun c => "drawtext=" ++ c) (repeat "" n) = repeat "drawtext=" n.
Proof. induction n as [| n IH]; [reflexivity |]. cbn [repeat map]. now rewrite IH. Qed.

Lemma empty_items_compile (fonts userdata : json) (n : nat) :
  for_each (item_drawtext fonts userdata) (repeat (JDict []) n) = Ok (repeat "" n).
Proof.
  induction n as [| n IH]; [reflexivity |].
  cbn [repeat for_each]. rewrite IH. reflexivity.
Qed.

(** X9: items without parameters are not rejected: a preset of [n]
    empty items compiles to [n] times [drawtext=], joined by commas,
    and a preset without items to the empty chain; fonts and user data
    are not looked at. *)
Theorem empty_items_give_empty_clauses
    (cfg : Config.t) (name : string) (ps preset : Dict.t json) (n : nat) :
  Dict.get "presets" (Config.data cfg) = Some (JDict ps) ->
  Dict.get name ps = Some (JDict preset) ->
  Dict.get "items" preset = Some (JList (repeat (JDict []) n)) ->
  build_overlay_flags name cfg = Ok ["-vf"; Str.join "," (repeat "drawtext=" n)].
Proof.
  intros Hps Hname Hitems.
  rewrite (build_overlay_flags_items cfg name ps preset _ Hps Hname Hitems).
  cbn [iterate bind]. rewrite empty_items_compile. cbn [bind].
  now rewrite drawtext_repeat.
Qed.

Lemma empty_items_give_empty_clauses_witness :
  let preset n := [("items", JList (repeat (JDict []) n))] in
  let cfg n := Config.mk "config.json"
                 [("presets", JDict [("p", JDict (preset n))]); ("fonts", JInt 0)] in
  build_overlay_flags "p" (cfg 0) = Ok ["-vf"; ""]
  /\ build_overlay_flags "p" (cfg 2) = Ok ["-vf"; "drawtext=,drawtext="].
Proof.
  cbv zeta. split.
  - apply (empty_items_give_empty_clauses _ "p"
             [("p", JDict [("items", JList [])])] [("items", JList [])] 0);
      reflexivity.
  - apply (empty_items_give_empty_clauses _ "p"
             [("p", JDict [("items", JList [JDict []; JDict []])])]
             [("items", JList [JDict []; JDict []])] 2);
      reflexivity.
Defined.

End OverlayMore.

(** ** More on the metadata *)

Section MetadataMore.

Lemma contains_char (c : ascii) (s : string) :
  Str.contains (String c "") s = occurs c s.
Proof.
  induction s as [| a s IH]; [reflexivity |].
  cbn [Str.contains occurs]. rewrite prefix_cons, prefix_empty, andb_true_r, IH.
  now rewrite Ascii.eqb_sym.
Qed.

Lemma occurs_count (c : ascii) (s : string) : 1 <= count c s -> occurs c s = true.
Proof.
  intro H. destruct (occurs c s) eqn:E; [reflexivity |].
  apply count_zero_occurs in E. lia.
Qed.

(** X10: whenever a frame rate is derived, it is a float if the rate
    text has a [/], also when the quotient is whole, and an integer if
    it has none. *)
Theorem rate_kind_follows_slash (fps : string) (x : number) :
  display_fps fps = Ok x ->
  if occurs "/" fps
  then exists f, x = NFloat f
  else exists n, x = NInt n.
Proof.
  unfold display_fps. rewrite contains_char. destruct (occurs "/" fps).
  - destruct (Str.split "/" fps) as [| n [| d [| ? ?]]]; try discriminate.
    destruct (Parse.py_float n); cbn [bind]; [| discriminate].
    destruct (Parse.py_float d); cbn [bind]; [| discriminate].
    destruct (Float.truediv _ _); cbn [bind]; [| discriminate].
    intro H. injection H as <-. eauto.
  - destruct (Parse.py_int fps); cbn [bind]; [| discriminate].
    intro H. injection H as <-. eauto.
Qed.

Lemma rate_kind_follows_slash_witness :
  display_fps "30000/1000" = Ok (NFloat (Float.of_Z 30))
  /\ exists f, NFloat (Float.of_Z 30) = NFloat f.
Proof.
  split; [reflexivity |].
  apply (rate_kind_follows_slash "30000/1000" (NFloat (Float.of_Z 30))).
  reflexivity.
Defined.

(** X11: a rate whose denominator reads as zero, such as the [0/0] of
    a stream without a frame rate, makes the derivation raise
    [ZeroDivisionError], which is no error of the program's own. *)
Theorem zero_denominator_raises
    (output_filename now : string) (video_stream : VideoStream.t)
    (n d : string) (x z : Float.t) :
  VideoStream.avg_frame_rate video_stream = n ++ "/" ++ d ->
  VideoStream.r_frame_rate video_stream = n ++ "/" ++ d ->
  occurs "/" n = false -> occurs "/" d = false ->
  Parse.py_float n = Ok x -> Parse.py_float d = Ok z -> Float.is_zero z = true ->
  build_userdata_from_metadata output_filename video_stream now
  = Raise ZeroDivisionError.
Proof.
  intros Ha Hr Hn Hd Hx Hz Hzero. unfold build_userdata_from_metadata.
  rewrite Ha, Hr, String.eqb_refl. cbn [negb]. unfold display_fps.
  rewrite contains_char, occurs_append. cbn [append occurs].
  rewrite Ascii.eqb_refl, orb_true_r.
  rewrite (split_char_append "/" n d Hn), (split_char_absent "/" d Hd).
  rewrite Hx, Hz. cbn [bind]. unfold Float.truediv. rewrite Hzero. reflexivity.
Qed.

Lemma zero_denominator_raises_witness :
  Parse.py_float "0" = Ok (S754_zero false)
  /\ build_userdata_from_metadata "out.mov"
       (VideoStream.mk 0 640 480 "0/0" "0/0" "mjpeg" "yuvj420p" None)
       "2024-01-01T00:00:00"
     = Raise ZeroDivisionError.
Proof.
  split; [reflexivity |].
  apply (zero_denominator_raises _ _ _ "0" "0" (S754_zero false) (S754_zero false));
    reflexivity.
Defined.

(** X12: a rate text with two or more [/] makes the derivation raise
    [ValueError]. *)
Theorem two_slashes_raise (fps : string) :
  2 <= count "/" fps -> display_fps fps = Raise ValueError.
Proof.
  intro H. unfold display_fps.
  rewrite contains_char, (occurs_count "/" fps) by lia.
  pose proof (split_char_length "/" fps) as Hlen.
  destruct (Str.split "/" fps) as [| a [| b [| c r]]]; cbn [List.length] in Hlen;
    try reflexivity.
  lia.
Qed.

Lemma two_slashes_raise_witness :
  2 <= count "/" "30/1/1" /\ display_fps "30/1/1" = Raise ValueError.
Proof.
  split; [vm_compute; lia |].
  apply (two_slashes_raise "30/1/1"). vm_compute. lia.
Defined.

(** The first part of a split has no separator and starts the text. *)
Lemma split_char_first (c : ascii) (s : string) :
  exists t,
    hd "" (Str.split (String c "") s) = t
    /\ occurs c t = false
    /\ (s = t \/ exists rest, s = t ++ String c rest).
Proof.
  induction s as [| a s IH].
  - exists "". repeat split. now left.
  - rewrite split_char_cons. destruct (Ascii.eqb c a) eqn:E.
    + apply Ascii.eqb_eq in E. subst a. exists "". repeat split. right. now exists s.
    + destruct IH as (t & Ht & Hocc & Hs).
      exists (String a t). split; [| split].
      * destruct (Str.split (String c "") s); cbn [hd] in *; now subst.
      * cbn [occurs]. now rewrite Ascii.eqb_sym, E.
      * destruct Hs as [-> | [rest ->]]; [now left | right; now exists rest].
Qed.

(** X13: when the user data is derived, its [heading_sub] is the
    clock's text up to its first [.], and all of it when it has none,
    followed by [Z]; [fps_rate] is the stream's rate text and
    [heading_title] the output file name. *)
Theorem derived_headings
    (output_filename now : string) (video_stream : VideoStream.t) (ud : Dict.t string) :
  build_userdata_from_metadata output_filename video_stream now = Ok ud ->
  Dict.get "fps_rate" ud = Some (VideoStream.avg_frame_rate video_stream)
  /\ Dict.get "heading_title" ud = Some output_filename
  /\ exists t,
       Dict.get "heading_sub" ud = Some (t ++ "Z")
       /\ occurs "." t = false
       /\ (now = t \/ exists rest, now = t ++ "." ++ rest).
Proof.
  unfold build_userdata_from_metadata.
  destruct (negb _); [discriminate |].
  destruct (display_fps _) as [fps |]; cbn [bind]; [| discriminate].
  intro H. injection H as <-. repeat split.
  destruct (split_char_first "." now) as (t & Ht & Hocc & Hs).
  exists t. cbn [Dict.get String.eqb Ascii.eqb Bool.eqb]. rewrite Ht. auto.
Qed.

Lemma derived_headings_witness :
  let ud := [("frame_start", "0"); ("timecode_start", "01:00:00:00");
             ("fps_rate", "25"); ("heading_title", "out.mov");
             ("heading_sub", "2024-05-06T07:08:09Z");
             ("info_1", "1920x1080, 25 FPS"); ("info_2", "h264, yuv420p")] in
  build_userdata_from_metadata "out.mov"
    (VideoStream.mk 0 1920 1080 "25" "25" "h264" "yuv420p" (Some ""))
    "2024-05-06T07:08:09.123456"
  = Ok ud
  /\ Dict.get "heading_title" ud = Some "out.mov".
Proof.
  cbv zeta. split; [reflexivity |].
  apply (derived_headings "out.mov" "2024-05-06T07:08:09.123456"
           (VideoStream.mk 0 1920 1080 "25" "25" "h264" "yuv420p" (Some ""))).
  reflexivity.
Defined.

End MetadataMore.

(** ** The command *)

Section Command.

Lemma get_ffmpeg (cfg : Config.t) (default : json) :
  Config.get cfg "path.ffmpeg" default
  = Config.get_loop (JDict (Config.data cfg)) ["path"; "ffmpeg"] default.
Proof. reflexivity. Qed.

Lemma get_ffprobe (cfg : Config.t) (default : json) :
  Config.get cfg "path.ffprobe" default
  = Config.get_loop (JDict (Config.data cfg)) ["path"; "ffprobe"] default.
Proof. reflexivity. Qed.

(** A tool path with a text as default is nothing only when the
    configuration says so. *)
Lemma tool_path_null (cfg : Config.t) (tool s : string) :
  Config.get_loop (JDict (Config.data cfg)) ["path"; tool] (JStr s) = JNull
  <-> tool_is_null cfg tool.
Proof.
  unfold tool_is_null. cbn [Config.get_loop].
  destruct (Dict.get "path" (Config.data cfg)) as [v |].
  - destruct v as [| | | | | | p];
      try (split; [discriminate | intros (p' & H & _); discriminate H]).
    destruct (Dict.get tool p) as [x |] eqn:E.
    + split.
      * intros ->. now exists p.
      * intros (p' & H & H'). injection H as <-. congruence.
    + split; [discriminate |]. intros (p' & H & H'). injection H as <-. congruence.
  - split; [discriminate | intros (p' & H & _); discriminate H].
Qed.

Lemma overlay_ok_shape (name : string) (cfg : Config.t) (l : list string) :
  build_overlay_flags name cfg = Ok l -> exists chain, l = ["-vf"; chain].
Proof.
  unfold build_overlay_flags.
  destruct (keys_of _); cbn [bind]; [| discriminate].
  destruct (negb _); [discriminate |].
  destruct (Config.__getitem__ _ _); cbn [bind]; [| discriminate].
  destruct (getitem _ _); cbn [bind]; [| discriminate].
  destruct (keys_of _); cbn [bind]; [| discriminate].
  destruct (negb _); [discriminate |].
  destruct (getitem _ _); cbn [bind]; [| discriminate].
  destruct (iterate _); cbn [bind]; [| discriminate].
  destruct (for_each _ _); cbn [bind]; [| discriminate].
  intro H. injection H as <-. eauto.
Qed.

(** The command, once the tool is there, scaling is off and the
    overlay compiled. *)
Lemma command_parts
    (config : Config.t) (args : Args.t) (input_filepath output_filepath : string)
    (video_stream : VideoStream.t) (audio_stream : option VideoStream.t)
    (overlay : list string) :
  Config.get config "path.ffmpeg" (JStr "ffmpeg") <> JNull ->
  String.eqb (Args.scale args) "off" = true ->
  build_overlay_flags (Args.preset args) config = Ok overlay ->
  build_ffmpeg_command config args input_filepath output_filepath
    video_stream audio_stream
  = Ok (Some (command_head (Config.get config "path.ffmpeg" (JStr "ffmpeg"))
                args input_filepath video_stream
              ++ video_options args ++ map JStr overlay
              ++ audio_options args audio_stream
              ++ closing_options args ++ [JStr output_filepath])%list).
Proof.
  intros Htool Hscale Hoverlay.
  unfold build_ffmpeg_command, command_head, video_options, audio_options,
    closing_options.
  rewrite Hscale, Hoverlay. cbn [negb bind].
  destruct (Config.get config "path.ffmpeg" (JStr "ffmpeg")); try contradiction;
    cbv zeta;
    destruct (negb (String.eqb (Args.bitrate args) "auto"));
    destruct (Args.profile args);
    destruct audio_stream;
    destruct (negb (String.eqb (Args.audio_codec args) "off"));
    destruct (negb (String.eqb (Args.audio_codec args) "auto"));
    destruct (negb (String.eqb (Args.audio_bitrate args) "auto"));
    destruct (Args.flags args);
    destruct (negb (String.eqb (Args.container args) "auto"));
    destruct (Args.y args);
    repeat rewrite <- app_assoc; cbn [app]; reflexivity.
Qed.

(** A command that is returned has these parts. *)
Lemma command_inversion
    (config : Config.t) (args : Args.t) (input_filepath output_filepath : string)
    (video_stream : VideoStream.t) (audio_stream : option VideoStream.t)
    (cmd : list json) :
  build_ffmpeg_command config args input_filepath output_filepath
    video_stream audio_stream = Ok (Some cmd) ->
  exists chain,
    build_overlay_flags (Args.preset args) config = Ok ["-vf"; chain]
    /\ cmd = (command_head (Config.get config "path.ffmpeg" (JStr "ffmpeg"))
                args input_filepath video_stream
              ++ video_options args ++ [JStr "-vf"; JStr chain]
              ++ audio_options args audio_stream
              ++ closing_options args ++ [JStr output_filepath])%list.
Proof.
  intro H.
  assert (Htool : Config.get config "path.ffmpeg" (JStr "ffmpeg") <> JNull).
  { intro E. unfold build_ffmpeg_command in H. rewrite E in H. discriminate H. }
  assert (Hscale : String.eqb (Args.scale args) "off" = true).
  { destruct (String.eqb (Args.scale args) "off") eqn:E; [reflexivity |].
    unfold build_ffmpeg_command in H. rewrite E in H. cbn [negb] in H.
    destruct (Config.get config "path.ffmpeg" (JStr "ffmpeg")); discriminate H. }
  destruct (build_overlay_flags (Args.preset args) config) as [overlay | e] eqn:Eo.
  - destruct (overlay_ok_shape _ _ _ Eo) as [chain ->].
    rewrite (command_parts _ _ _ _ _ _ _ Htool Hscale Eo) in H.
    exists chain. split; [reflexivity |]. cbn [map] in H. congruence.
  - unfold build_ffmpeg_command in H. rewrite Hscale, Eo in H. cbn [negb bind] in H.
    destruct (Config.get config "path.ffmpeg" (JStr "ffmpeg")); discriminate H.
Qed.

(** X14: the command builder returns nothing exactly when the
    configuration sets [ffmpeg] of [path] to [null]; a missing [path] or
    [ffmpeg] falls back on the tool name [ffmpeg], and then the builder
    returns a command or raises. *)
Theorem no_command_iff_tool_null
    (config : Config.t) (args : Args.t) (input_filepath output_filepath : string)
    (video_stream : VideoStream.t) (audio_stream : option VideoStream.t) :
  build_ffmpeg_command config args input_filepath output_filepath
    video_stream audio_stream = Ok None
  <-> tool_is_null config "ffmpeg".
Proof.
  rewrite <- (tool_path_null config "ffmpeg" "ffmpeg"), <- get_ffmpeg.
  unfold build_ffmpeg_command.
  destruct (Config.get config "path.ffmpeg" (JStr "ffmpeg"));
    try (split; [| discriminate]);
    try (split; reflexivity);
    destruct (negb (String.eqb (Args.scale args) "off")); try discriminate;
    destruct (build_overlay_flags (Args.preset args) config); cbn [bind];
    discriminate.
Qed.

(** X15: with a tool configured, any [scale] other than [off] makes
    the builder raise the scaling error, before the preset is looked
    at. *)
Theorem scaling_rejected_before_preset
    (config : Config.t) (args : Args.t) (input_filepath output_filepath : string)
    (video_stream : VideoStream.t) (audio_stream : option VideoStream.t) :
  ~ tool_is_null config "ffmpeg" ->
  Args.scale args <> "off" ->
  build_ffmpeg_command config args input_filepath output_filepath
    video_stream audio_stream = Raise (BitcException scaling_message).
Proof.
  intros Htool Hscale. apply String.eqb_neq in Hscale.
  rewrite <- (tool_path_null config "ffmpeg" "ffmpeg"), <- get_ffmpeg in Htool.
  unfold build_ffmpeg_command. rewrite Hscale. cbn [negb].
  destruct (Config.get config "path.ffmpeg" (JStr "ffmpeg")); try reflexivity.
  now contradiction Htool.
Qed.

Lemma scaling_rejected_before_preset_witness :
  let config := Config.mk "config.json" [("_userdata", JDict [])] in
  let args := Args.mk "in.mp4" "no such preset" "prores_ks" "auto" None "1080p"
                "auto" "auto" None None "auto" "config.json" false "out.mov" in
  Args.scale args <> "off"
  /\ build_ffmpeg_command config args "/w/in.mp4" "/w/out.mov"
       (VideoStream.mk 0 1920 1080 "25" "25" "h264" "yuv420p" None) None
     = Raise (BitcException scaling_message).
Proof.
  cbv zeta. split; [discriminate |].
  apply scaling_rejected_before_preset.
  - intros (p & H & _). discriminate H.
  - discriminate.
Defined.

(** X16: every command the builder returns starts with the tool, the
    fixed flags, the input path, the video stream's map and the video
    codec, holds the [-vf] pair of the overlay compiler for the preset,
    and ends with the output path. *)
Theorem command_frame
    (config : Config.t) (args : Args.t) (input_filepath output_filepath : string)
    (video_stream : VideoStream.t) (audio_stream : option VideoStream.t)
    (cmd : list json) :
  build_ffmpeg_command config args input_filepath output_filepath
    video_stream audio_stream = Ok (Some cmd) ->
  exists chain before after,
    build_overlay_flags (Args.preset args) config = Ok ["-vf"; chain]
    /\ cmd = (command_head (Config.get config "path.ffmpeg" (JStr "ffmpeg"))
                args input_filepath video_stream
              ++ before ++ [JStr "-vf"; JStr chain] ++ after
              ++ [JStr output_filepath])%list.
Proof.
  intro H. destruct (command_inversion _ _ _ _ _ _ _ H) as (chain & Ho & ->).
  exists chain, (video_options args),
    (audio_options args audio_stream ++ closing_options args)%list.
  split; [exact Ho |]. now rewrite <- !app_assoc.
Qed.

Lemma command_frame_witness :
  let config := Config.mk "config.json"
                  [("presets", JDict [("default", JDict [("items", JList [])])]);
                   ("_userdata", JDict [])] in
  let args := Args.defaults "in.mp4" "out.mov" in
  let video := VideoStream.mk 0 1920 1080 "25" "25" "h264" "yuv420p" None in
  let cmd := [JStr "ffmpeg"; JStr "-hide_banner"; JStr "-loglevel"; JStr "warning";
              JStr "-stats"; JStr "-i"; JStr "/w/in.mp4"; JStr "-map"; JStr "0:0";
              JStr "-c:v"; JStr "prores_ks"; JStr "-vf"; JStr ""; JStr "-an";
              JStr "/w/out.mov"] in
  build_ffmpeg_command config args "/w/in.mp4" "/w/out.mov" video None = Ok (Some cmd)
  /\ exists chain before after,
       build_overlay_flags (Args.preset args) config = Ok ["-vf"; chain]
       /\ cmd = (command_head (Config.get config "path.ffmpeg" (JStr "ffmpeg"))
                   args "/w/in.mp4" video
                 ++ before ++ [JStr "-vf"; JStr chain] ++ after
                 ++ [JStr "/w/out.mov"])%list.
Proof.
  cbv zeta. split; [reflexivity |].
  apply (command_frame
           (Config.mk "config.json"
              [("presets", JDict [("default", JDict [("items", JList [])])]);
               ("_userdata", JDict [])])
           (Args.defaults "in.mp4" "out.mov") "/w/in.mp4" "/w/out.mov"
           (VideoStream.mk 0 1920 1080 "25" "25" "h264" "yuv420p" None) None).
  reflexivity.
Defined.

End Command.

(** ** Flags and audio *)

Section Flags.

Lemma split_char_nonempty (c : ascii) (s : string) : Str.split (String c "") s <> [].
Proof.
  pose proof (split_char_length c s) as H.
  destruct (Str.split (String c "") s); [discriminate H | discriminate].
Qed.

(** Splitting two texts put together around the separator. *)
Lemma split_char_concat (c : ascii) (a b : string) :
  Str.split (String c "") (a ++ String c b)
  = (Str.split (String c "") a ++ Str.split (String c "") b)%list.
Proof.
  induction a as [| x a IH].
  - cbn [append]. rewrite split_char_cons, Ascii.eqb_refl. reflexivity.
  - cbn [append]. rewrite !split_char_cons, IH.
    destruct (Ascii.eqb c x); [reflexivity |].
    pose proof (split_char_nonempty c a) as Hne.
    destruct (Str.split (String c "") a); [contradiction | reflexivity].
Qed.

Lemma flag_tokens_cons (f g : string) (flags : list string) :
  flag_tokens (f :: g :: flags) = (Str.split " " f ++ flag_tokens (g :: flags))%list.
Proof.
  unfold flag_tokens. rewrite join_cons. cbn [append]. apply split_char_concat.
Qed.

Lemma flat_split_plain (flags : list string) :
  forallb (fun f => negb (occurs " " f)) flags = true ->
  flat_map (Str.split " ") flags = flags.
Proof.
  induction flags as [| f flags IH]; [reflexivity |]. intro H.
  cbn [forallb] in H. apply andb_true_iff in H as [Hf Hrest].
  apply negb_true_iff in Hf.
  cbn [flat_map]. rewrite (split_char_absent " " f Hf), (IH Hrest). reflexivity.
Qed.

(** X17: the pass-through flags are cut at every space: one flag or
    more become the parts of each flag in turn, so that a flag with
    spaces becomes several arguments and flags without a space pass as
    they are ([flat_split_plain]); no flags at all would become one
    empty argument. *)
Theorem flags_cut_at_spaces (f : string) (flags : list string) :
  flag_tokens (f :: flags) = flat_map (Str.split " ") (f :: flags)
  /\ flag_tokens [] = [""].
Proof.
  split; [| reflexivity]. revert f.
  induction flags as [| g flags IH]; intro f.
  - cbn [flat_map]. now rewrite app_nil_r.
  - rewrite flag_tokens_cons, (IH g). reflexivity.
Qed.

(** X18: a command built without an audio stream, or with the audio
    codec [off], holds [-an]; one built with an audio stream and any
    other audio codec holds the map of that stream. *)
Theorem audio_in_command
    (config : Config.t) (args : Args.t) (input_filepath output_filepath : string)
    (video_stream : VideoStream.t) (audio_stream : option VideoStream.t)
    (cmd : list json) :
  build_ffmpeg_command config args input_filepath output_filepath
    video_stream audio_stream = Ok (Some cmd) ->
  match audio_stream with
  | Some audio =>
      if String.eqb (Args.audio_codec args) "off"
      then In (JStr "-an") cmd
      else exists before after,
             cmd = (before ++ [JStr "-map";
                               JStr ("0:" ++ int_str (VideoStream.index audio))]
                    ++ after)%list
                   /\ In (JStr "-vf") before
  | None => In (JStr "-an") cmd
  end.
Proof.
  intro H. destruct (command_inversion _ _ _ _ _ _ _ H) as (chain & Ho & ->).
  unfold audio_options. destruct audio_stream as [audio |].
  - destruct (String.eqb (Args.audio_codec args) "off"); cbn [negb]; cbv iota.
    + rewrite !in_app_iff. do 3 right. left. now left.
    + exists (command_head (Config.get config "path.ffmpeg" (JStr "ffmpeg"))
                args input_filepath video_stream
              ++ video_options args ++ [JStr "-vf"; JStr chain])%list.
      eexists. split.
      * rewrite <- !app_assoc. cbn [app]. reflexivity.
      * rewrite !in_app_iff. do 2 right. now left.
  - rewrite !in_app_iff. do 3 right. left. now left.
Qed.

Lemma audio_in_command_witness :
  let config := Config.mk "config.json"
                  [("presets", JDict [("default", JDict [("items", JList [])])]);
                   ("_userdata", JDict [])] in
  let args := Args.mk "in.mp4" "default" "prores_ks" "auto" None "off" "off" "auto"
                None None "auto" "config.json" false "out.mov" in
  let video := VideoStream.mk 0 1920 1080 "25" "25" "h264" "yuv420p" None in
  let audio := VideoStream.mk 1 0 0 "0/0" "0/0" "aac" "" None in
  let cmd := [JStr "ffmpeg"; JStr "-hide_banner"; JStr "-loglevel"; JStr "warning";
              JStr "-stats"; JStr "-i"; JStr "/w/in.mp4"; JStr "-map"; JStr "0:0";
              JStr "-c:v"; JStr "prores_ks"; JStr "-vf"; JStr ""; JStr "-an";
              JStr "/w/out.mov"] in
  build_ffmpeg_command config args "/w/in.mp4" "/w/out.mov" video (Some audio)
  = Ok (Some cmd)
  /\ In (JStr "-an") cmd.
Proof.
  cbv zeta. split; [reflexivity |].
  apply (audio_in_command
           (Config.mk "config.json"
              [("presets", JDict [("default", JDict [("items", JList [])])]);
               ("_userdata", JDict [])])
           (Args.mk "in.mp4" "default" "prores_ks" "auto" None "off" "off" "auto"
              None None "auto" "config.json" false "out.mov")
           "/w/in.mp4" "/w/out.mov"
           (VideoStream.mk 0 1920 1080 "25" "25" "h264" "yuv420p" None)
           (Some (VideoStream.mk 1 0 0 "0/0" "0/0" "aac" "" None))).
  reflexivity.
Defined.

End Flags.

(** ** main *)

Section Main.

Lemma kinds_differ (stream : Probe.stream) :
  of_kind "video" stream = true -> of_kind "audio" stream = false.
Proof.
  unfold of_kind. intro H. apply String.eqb_eq in H. now rewrite H.
Qed.

Lemma select_streams_finds
    (video audio : option Probe.stream) (streams : list Probe.stream) :
  select_streams video audio streams
  = (match video with
     | Some _ => video
     | None => find (of_kind "video") streams
     end,
     match audio with
     | Some _ => audio
     | None => find (of_kind "audio") streams
     end).
Proof.
  revert video audio. induction streams as [| s streams IH]; intros video audio.
  - now destruct video, audio.
  - cbn [select_streams find]. fold (of_kind "video" s). fold (of_kind "audio" s).
    destruct video as [v |], audio as [a |];
      destruct (of_kind "video" s) eqn:Ev;
      try rewrite (kinds_differ s Ev);
      try destruct (of_kind "audio" s) eqn:Ea;
      rewrite IH; reflexivity.
Qed.

(** X19: of the probed streams, [main] takes the first whose kind is
    [video] and the first whose kind is [audio], each where there is
    one, wherever they stand among the others. *)
Theorem first_stream_of_each_kind (streams : list Probe.stream) :
  select_streams None None streams
  = (find (of_kind "video") streams, find (of_kind "audio") streams).
Proof. apply select_streams_finds. Qed.

Lemma argv_texts (cmd : list json) (arguments : list string) :
  argv cmd = Ok arguments -> cmd = map JStr arguments.
Proof.
  revert arguments. induction cmd as [| x cmd IH]; intros arguments H.
  - cbn [argv] in H. now injection H as <-.
  - cbn [argv] in H. destruct x; try discriminate H.
    destruct (argv cmd) as [r |]; cbn [bind] in H; [| discriminate H].
    injection H as <-. cbn [map]. now rewrite (IH r eq_refl).
Qed.

Lemma last_map_texts (l : list string) (s : string) :
  map JStr l <> [] -> last (map JStr l) JNull = JStr (last l s).
Proof.
  induction l as [| x l IH]; [contradiction |]. intros _.
  destruct l as [| y l]; [reflexivity |].
  change (last (map JStr (x :: y :: l)) JNull) with (last (map JStr (y :: l)) JNull).
  change (last (x :: y :: l) s) with (last (y :: l) s).
  apply IH. discriminate.
Qed.

(** X20: whenever [main] returns, what it returns is the return code of
    the encoder, started with arguments that are all texts, begin with
    the tool and the fixed flags and the absolute input path, and end
    with the absolute output path. *)
Theorem main_returns_encoder_code (env : Env.t) (args : Args.t) (code : Z) :
  main env args = Ok code ->
  exists tool middle,
    code = Env.encode env
             ([tool; "-hide_banner"; "-loglevel"; "warning"; "-stats";
               "-i"; Env.abspath env (Args.i args)]
              ++ middle ++ [Env.abspath env (Args.output args)])%list.
Proof.
  unfold main.
  destruct (Config.init _ _) as [config |]; cbn [bind]; [| discriminate].
  destruct (negb _); [discriminate |].
  destruct (probe_media _ _ _) as [metadata |]; [| discriminate].
  destruct (select_streams _ _ _) as [[video |] audio]; [| discriminate].
  destruct (build_userdata_from_metadata _ _ _) as [ud |]; cbn [bind]; [| discriminate].
  destruct (Config.hydrate_userdata config _) as [config1 [[] |]]; cbn [bind];
    [| discriminate].
  destruct (Config.hydrate_userdata config1 _) as [config2 [[] |]]; cbn [bind];
    [| discriminate].
  destruct (build_ffmpeg_command _ _ _ _ _ _) as [[cmd |] |] eqn:Ec; cbn [bind];
    try discriminate.
  destruct (argv cmd) as [arguments |] eqn:Ea; cbn [bind]; [| discriminate].
  intro H. injection H as <-.
  destruct (command_inversion _ _ _ _ _ _ _ Ec) as (chain & _ & Hcmd).
  pose proof (argv_texts _ _ Ea) as Htexts. rewrite Hcmd in Htexts.
  unfold command_head in Htexts.
  destruct arguments as [| tool arguments]; [discriminate Htexts |].
  exists tool.
  assert (Hshape : forall (rest : list json) (out : string) (l : list string),
             (rest ++ [JStr out])%list = map JStr l ->
             exists middle, l = (middle ++ [out])%list).
  { clear. intros rest out l. revert rest.
    induction l as [| x l IH]; intros rest H.
    - destruct rest; discriminate H.
    - destruct rest as [| r rest].
      + cbn [app map] in H. injection H as <- Hl.
        destruct l; [now exists [] | discriminate Hl].
      + cbn [app map] in H. injection H as _ Hl.
        destruct (IH rest Hl) as [middle ->]. now exists (x :: middle). }
  cbn [app map] in Htexts.
  destruct arguments as [| a1 [| a2 [| a3 [| a4 [| a5 [| a6 rest]]]]]];
    try discriminate Htexts.
  injection Htexts as _ <- <- <- <- <- <- Hrest.
  rewrite !app_comm_cons, !app_assoc in Hrest.
  destruct (Hshape _ _ _ Hrest) as [middle ->].
  now exists middle.
Qed.

Lemma main_returns_encoder_code_witness :
  let doc := [("presets", JDict [("default", JDict [("items", JList [])])])] in
  let video := VideoStream.mk 0 1920 1080 "25" "25" "h264" "yuv420p" None in
  let env := Env.mk (fun _ => Some doc) (fun _ => true) (fun p => "/w/" ++ p)
               (fun _ => Probe.mk JNull [Probe.mk_stream "video" video])
               "2024-01-01T00:00:00" (fun a => Z.of_nat (List.length a)) in
  main env (Args.defaults "in.mp4" "out.mov") = Ok 15%Z
  /\ exists tool middle,
       15%Z = Env.encode env
                ([tool; "-hide_banner"; "-loglevel"; "warning"; "-stats";
                  "-i"; "/w/in.mp4"] ++ middle ++ ["/w/out.mov"])%list.
Proof.
  cbv zeta. split; [reflexivity |].
  apply (main_returns_encoder_code
           (Env.mk
              (fun _ => Some [("presets",
                               JDict [("default", JDict [("items", JList [])])])])
              (fun _ => true) (fun p => "/w/" ++ p)
              (fun _ => Probe.mk JNull
                          [Probe.mk_stream "video"
                             (VideoStream.mk 0 1920 1080 "25" "25" "h264" "yuv420p" None)])
              "2024-01-01T00:00:00" (fun a => Z.of_nat (List.length a)))
           (Args.defaults "in.mp4" "out.mov") 15%Z).
  reflexivity.
Defined.

(** X21: with a configuration that loads, an input that exists and a
    probe configured, an input none of whose streams is of kind [video]
    makes [main] raise the error that names the input; the script then
    ends with status 1 and the [ERROR:] line. *)
Theorem main_without_video_stream
    (env : Env.t) (args : Args.t) (config : Config.t) :
  let input_filepath := Env.abspath env (Args.i args) in
  let tool := Config.get config "path.ffprobe" (JStr "ffprobe") in
  Config.init (Args.config args) (Env.read_config env (Args.config args)) = Ok config ->
  Env.path_exists env input_filepath = true ->
  ~ tool_is_null config "ffprobe" ->
  forallb (fun s => negb (of_kind "video" s))
    (Probe.streams (Env.ffprobe env (probe_command tool input_filepath))) = true ->
  main env args = Raise (no_video_stream input_filepath)
  /\ exit_status (main env args) = 1%Z
  /\ error_line (main env args)
     = Some ("ERROR: Input file '" ++ input_filepath
             ++ "' does not have any video streams").
Proof.
  cbv zeta. intros Hinit Hexists Htool Hnone.
  assert (Hmain : main env args = Raise (no_video_stream (Env.abspath env (Args.i args)))).
  { unfold main. rewrite Hinit. cbn [bind]. rewrite Hexists. cbn [negb].
    unfold probe_media.
    rewrite <- (tool_path_null config "ffprobe" "ffprobe"), <- get_ffprobe in Htool.
    assert (Hfind : find (of_kind "video")
                      (Probe.streams
                         (Env.ffprobe env
                            (probe_command (Config.get config "path.ffprobe" (JStr "ffprobe"))
                               (Env.abspath env (Args.i args))))) = None).
    { induction (Probe.streams _) as [| s l IH]; [reflexivity |].
      cbn [forallb] in Hnone. apply andb_true_iff in Hnone as [Hs Hl].
      apply negb_true_iff in Hs. cbn [find]. rewrite Hs. exact (IH Hl). }
    destruct (Config.get config "path.ffprobe" (JStr "ffprobe")); try contradiction;
      rewrite select_streams_finds, Hfind; reflexivity. }
  rewrite Hmain. repeat split.
Qed.

Lemma main_without_video_stream_witness :
  let audio := VideoStream.mk 0 0 0 "0/0" "0/0" "aac" "" None in
  let env := Env.mk (fun _ => Some []) (fun _ => true) (fun p => "/w/" ++ p)
               (fun _ => Probe.mk JNull [Probe.mk_stream "audio" audio])
               "2024-01-01T00:00:00" (fun _ => 0%Z) in
  Env.path_exists env "/w/song.wav" = true
  /\ main env (Args.defaults "song.wav" "out.mov")
     = Raise (no_video_stream "/w/song.wav").
Proof.
  cbv zeta. split; [reflexivity |].
  apply (main_without_video_stream
           (Env.mk (fun _ => Some []) (fun _ => true) (fun p => "/w/" ++ p)
              (fun _ => Probe.mk JNull
                          [Probe.mk_stream "audio"
                             (VideoStream.mk 0 0 0 "0/0" "0/0" "aac" "" None)])
              "2024-01-01T00:00:00" (fun _ => 0%Z))
           (Args.defaults "song.wav" "out.mov")
           (Config.mk "config.json" [("_userdata", JDict [])])).
  - reflexivity.
  - reflexivity.
  - intros (p & H & _). discriminate H.
  - reflexivity.
Defined.

(** X22: with the probe set to [null] in the configuration, nothing is
    probed and [main] raises [KeyError], which is no error of the
    program's own, instead of an error message. *)
Theorem main_without_probe (env : Env.t) (args : Args.t) (config : Config.t) :
  Config.init (Args.config args) (Env.read_config env (Args.config args)) = Ok config ->
  Env.path_exists env (Env.abspath env (Args.i args)) = true ->
  tool_is_null config "ffprobe" ->
  main env args = Raise KeyError /\ error_line (main env args) = None.
Proof.
  intros Hinit Hexists Htool.
  rewrite <- (tool_path_null config "ffprobe" "ffprobe"), <- get_ffprobe in Htool.
  assert (Hmain : main env args = Raise KeyError).
  { unfold main. rewrite Hinit. cbn [bind]. rewrite Hexists. cbn [negb].
    unfold probe_media. rewrite Htool. reflexivity. }
  rewrite Hmain. now split.
Qed.

Lemma main_without_probe_witness :
  let doc := [("path", JDict [("ffprobe", JNull)])] in
  let env := Env.mk (fun _ => Some doc) (fun _ => true) (fun p => p)
               (fun _ => Probe.mk JNull []) "" (fun _ => 0%Z) in
  tool_is_null (Config.mk "config.json" (doc ++ [("_userdata", JDict [])])%list) "ffprobe"
  /\ main env (Args.defaults "in.mp4" "out.mov") = Raise KeyError.
Proof.
  cbv zeta. split.
  - exists [("ffprobe", JNull)]. now split.
  - apply (main_without_probe
             (Env.mk (fun _ => Some [("path", JDict [("ffprobe", JNull)])])
                (fun _ => true) (fun p => p) (fun _ => Probe.mk JNull []) ""
                (fun _ => 0%Z))
             (Args.defaults "in.mp4" "out.mov")
             (Config.mk "config.json"
                [("path", JDict [("ffprobe", JNull)]); ("_userdata", JDict [])])).
    + reflexivity.
    + reflexivity.
    + exists [("ffprobe", JNull)]. now split.
Defined.

End Main.

(** ** The order of the user data *)

Section Order.

(** Substitution read on the segments, for plain user data. *)
Lemma substitute_on_segments (ud : Dict.t string) (gs : list segment) :
  forallb plain_entry ud = true ->
  forallb plain_segment gs = true ->
  substitute (as_json ud) (render gs) = Ok (substitute_spec ud gs).
Proof.
  revert gs. induction ud as [| [k u] ud IH]; intros gs Hud Hgs.
  - cbn [as_json map substitute]. unfold substitute_spec, render.
    apply f_equal, f_equal, map_ext. now intros [s | k].
  - cbn [forallb] in Hud. apply andb_true_iff in Hud as [Hku Hud].
    unfold plain_entry in Hku. cbn [fst snd] in Hku.
    apply andb_true_iff in Hku as [Hk Hu].
    apply negb_true_iff in Hk. apply negb_true_iff in Hu.
    rewrite substitute_cons, (replace_fills k u gs Hk Hgs).
    rewrite (IH _ Hud (fill_plain k u gs Hu Hgs)), substitute_spec_fill.
    reflexivity.
Qed.

(** X23: for user data whose keys have no [}] and whose values have no
    [$], and a value made of texts without [$] and placeholders whose
    keys have neither [$] nor [}], the result of the substitution does
    not depend on the order of the user data: two namespaces that give
    every key the same value give the same text. *)
Theorem substitution_order_irrelevant
    (ud1 ud2 : Dict.t string) (gs : list segment) :
  forallb plain_entry ud1 = true ->
  forallb plain_entry ud2 = true ->
  forallb plain_segment gs = true ->
  (forall k, Dict.get k ud1 = Dict.get k ud2) ->
  substitute (as_json ud1) (render gs) = substitute (as_json ud2) (render gs).
Proof.
  intros H1 H2 Hgs Hsame.
  rewrite (substitute_on_segments ud1 gs H1 Hgs), (substitute_on_segments ud2 gs H2 Hgs).
  unfold substitute_spec. apply f_equal, f_equal, map_ext.
  intros [s | k]; cbn [resolve]; [reflexivity | now rewrite Hsame].
Qed.

Lemma substitution_order_irrelevant_witness :
  let ud1 := [("title", "My Clip"); ("reel", "7")] in
  let ud2 := [("reel", "7"); ("title", "My Clip")] in
  let gs := [Placeholder "reel"; Text " - "; Placeholder "title"] in
  (forall k, Dict.get k ud1 = Dict.get k ud2)
  /\ substitute (as_json ud1) (render gs) = substitute (as_json ud2) (render gs).
Proof.
  cbv zeta.
  assert (Hsame : forall k,
             Dict.get k [("title", "My Clip"); ("reel", "7")]
             = Dict.get k [("reel", "7"); ("title", "My Clip")]).
  { intro k. cbn [Dict.get].
    destruct (String.eqb k "title") eqn:Et, (String.eqb k "reel") eqn:Er;
      try reflexivity.
    apply String.eqb_eq in Et. apply String.eqb_eq in Er. congruence. }
  split; [exact Hsame |].
  apply (substitution_order_irrelevant
           [("title", "My Clip"); ("reel", "7")]
           [("reel", "7"); ("title", "My Clip")]
           [Placeholder "reel"; Text " - "; Placeholder "title"]);
    [reflexivity | reflexivity | reflexivity | exact Hsame].
Defined.

End Order.
